(** * The Ekko deployment test runner

    A shallow embedding of [scripts/automated-deployment-testing.py]: the
    request client, the token cache, the test runner, the phase
    scheduler and the report, with the theorems that relate them to the
    written specification.

    Python code that mutates [self] and may raise is written in a state
    monad whose computations end either by returning or by raising; the
    state is kept when an exception is raised, as in Python. *)

From Stdlib Require Import ZArith Lia.
From Stdlib Require Import Floats.PrimFloat Numbers.Cyclic.Int63.Uint63.
From Stdlib Require Import Strings.Ascii Strings.String Numbers.DecimalString.
From stdpp Require Import gmap strings list.

Local Open Scope Z_scope.
Local Set Warnings "-register-all".

(** ** Exceptions *)

(** The exception classes the script raises, catches or can meet.  Two
    of them derive from [BaseException] only.  The exception that
    [Response.json()] raises on a body that is not JSON is
    [json.JSONDecodeError] in older releases of requests and, in newer
    ones, a class that derives from [RequestException] as well. *)
Inductive ExcClass : Type :=
| Exception_
| KeyError
| TypeError
| AttributeError
| AssertionError
| OSError
| RequestException
| JSONDecodeError
| RequestsJSONDecodeError
| OtherException (cls : string)
| KeyboardInterrupt
| SystemExit.

(** [isinstance(e, Exception)]. *)
Definition is_Exception (c : ExcClass) : bool :=
  match c with
  | KeyboardInterrupt | SystemExit => false
  | _ => true
  end.

(** [isinstance(e, requests.exceptions.RequestException)]. *)
Definition is_RequestException (c : ExcClass) : bool :=
  match c with
  | RequestException | RequestsJSONDecodeError => true
  | _ => false
  end.

(** [isinstance(e, json.JSONDecodeError)]. *)
Definition is_JSONDecodeError (c : ExcClass) : bool :=
  match c with
  | JSONDecodeError | RequestsJSONDecodeError => true
  | _ => false
  end.

(** A raised exception: its class and [str(e)]. *)
Record Exc : Type := mkExc { exc_class : ExcClass; exc_str : string }.

(** ** JSON values and the Python operations the script applies to them *)

(** What [Response.json()] returns.  An object is kept as the list of
    its members; a lookup takes the first member with the key. *)
Inductive Json : Type :=
| JNull
| JBool (b : bool)
| JInt (n : Z)
| JFloat (x : float)
| JStr (s : string)
| JArr (items : list Json)
| JObj (members : list (string * Json)).

(** [type(v).__name__]. *)
Definition py_type_name (v : Json) : string :=
  match v with
  | JNull => "NoneType"
  | JBool _ => "bool"
  | JInt _ => "int"
  | JFloat _ => "float"
  | JStr _ => "str"
  | JArr _ => "list"
  | JObj _ => "dict"
  end.

(** [bool(v)]. *)
Definition truthy (v : Json) : bool :=
  match v with
  | JNull => false
  | JBool b => b
  | JInt n => negb (Z.eqb n 0)
  | JFloat x => negb (PrimFloat.eqb x 0)
  | JStr s => negb (String.eqb s "")
  | JArr items => match items with [] => false | _ => true end
  | JObj members => match members with [] => false | _ => true end
  end.

Fixpoint assoc {A : Type} (k : string) (l : list (string * A)) : option A :=
  match l with
  | [] => None
  | (k', v) :: l' => if String.eqb k k' then Some v else assoc k l'
  end.

(** [sub in s] on strings. *)
Fixpoint str_contains (sub s : string) : bool :=
  String.prefix sub s
  || match s with
     | EmptyString => false
     | String _ s' => str_contains sub s'
     end.

(** [s[:n]]. *)
Definition str_take (n : nat) (s : string) : string := String.substring 0 n s.

(** [s.rstrip('/')]. *)
Fixpoint rstrip_slash (s : string) : string :=
  match s with
  | EmptyString => EmptyString
  | String c s' =>
      match rstrip_slash s' with
      | EmptyString => if Ascii.eqb c "/"%char then EmptyString else String c EmptyString
      | t => String c t
      end
  end.

(** [str(n)] for an integer. *)
Definition str_of_Z (n : Z) : string := NilZero.string_of_int (Z.to_int n).

(** [c in s] for one character. *)
Fixpoint str_has (c : ascii) (s : string) : bool :=
  match s with
  | EmptyString => false
  | String a s' => Ascii.eqb a c || str_has c s'
  end.

(** Text of ASCII characters only. *)
Fixpoint ascii_text (s : string) : bool :=
  match s with
  | EmptyString => true
  | String c s' => (nat_of_ascii c <? 128)%nat && ascii_text s'
  end.

Definition double_quote : ascii := ascii_of_nat 34.
Definition backslash : ascii := ascii_of_nat 92.

Definition hex_digit (n : nat) : ascii :=
  nth n (list_ascii_of_string "0123456789abcdef") "0"%char.

(** One character of [repr(s)], between quotes [quote]: the quote and
    the backslash are escaped; so are tab, line feed and carriage
    return, by letter, and the other control characters, by code. *)
Definition repr_char (quote c : ascii) : string :=
  let n := nat_of_ascii c in
  if Ascii.eqb c quote || Ascii.eqb c backslash then String backslash (String c EmptyString)
  else if (n =? 9)%nat then String backslash "t"
  else if (n =? 10)%nat then String backslash "n"
  else if (n =? 13)%nat then String backslash "r"
  else if (n <? 32)%nat || (n =? 127)%nat then
    String backslash
      (String "x" (String (hex_digit (n / 16)) (String (hex_digit (n mod 16)) EmptyString)))
  else String c EmptyString.

Fixpoint repr_body (quote : ascii) (s : string) : string :=
  match s with
  | EmptyString => EmptyString
  | String c s' => repr_char quote c +:+ repr_body quote s'
  end.

(** [repr(s)] for ASCII text [s]: between double quotes when [s] holds
    a single quote and no double quote, between single quotes
    otherwise.  Bytes above 127 are copied, which is what [repr] does
    with a printable character. *)
Definition py_repr (s : string) : string :=
  let quote :=
    if str_has "'"%char s && negb (str_has double_quote s) then double_quote else "'"%char in
  String quote (repr_body quote s +:+ String quote EmptyString).

(** The result of a Python expression that may raise. *)
Inductive Completion (A : Type) : Type :=
| Returned (a : A)
| Raised (e : Exc).
Arguments Returned {A} a.
Arguments Raised {A} e.

(** [key in v]. *)
Definition py_in (key : string) (v : Json) : Completion bool :=
  match v with
  | JObj members => Returned (bool_decide (is_Some (assoc key members)))
  | JArr items =>
      Returned (existsb (fun i => match i with JStr s => String.eqb s key | _ => false end) items)
  | JStr s => Returned (str_contains key s)
  | _ => Raised (mkExc TypeError
                   ("argument of type '" +:+ py_type_name v +:+ "' is not iterable"))
  end.

(** [v[key]] for a string key. *)
Definition py_getitem (v : Json) (key : string) : Completion Json :=
  match v with
  | JObj members =>
      match assoc key members with
      | Some x => Returned x
      | None => Raised (mkExc KeyError (py_repr key))
      end
  | JArr _ => Raised (mkExc TypeError "list indices must be integers or slices, not str")
  | JStr _ => Raised (mkExc TypeError "string indices must be integers")
  | _ => Raised (mkExc TypeError
                   ("'" +:+ py_type_name v +:+ "' object is not subscriptable"))
  end.

(** [v.get(key, default)]. *)
Definition py_get (v : Json) (key : string) (dflt : Json) : Completion Json :=
  match v with
  | JObj members => Returned (default dflt (assoc key members))
  | _ => Raised (mkExc AttributeError
                   ("'" +:+ py_type_name v +:+ "' object has no attribute 'get'"))
  end.

(** ** The data model *)

Record TestAccount : Type := mkTestAccount { email : string; password : string }.

Record TestResult : Type := mkTestResult {
  test_id : string;
  name : string;
  status : string;
  message : string;
  duration : float
}.

(** Tokens are whatever the login response carried under [token]. *)
Record TestSession : Type := mkTestSession {
  accounts : gmap string TestAccount;
  tokens : gmap string Json;
  base_url : string;
  results : list TestResult;
  start_time : float
}.

(** ** HTTP *)

Record Request : Type := mkRequest {
  req_method : string;
  req_url : string;
  req_json : option Json;
  req_headers : list (string * string);
  req_timeout : Z
}.

(** A [requests.Response] as the script reads it: [json] is the value
    [Response.json()] returns, or the exception it raises. *)
Record Response : Type := mkResponse {
  status_code : Z;
  reason : string;
  text : string;
  json : Exc + Json
}.

(** What one attempt on the wire gives: a response, or a transport
    failure (connection refused, timeout) with its description. *)
Inductive Reply : Type :=
| Answer (resp : Response)
| Broken (what : string).

(** [urllib3.util.retry.Retry], the fields the script sets. *)
Record Retry : Type := mkRetry {
  total : nat;
  status_forcelist : list Z;
  allowed_methods : list string;
  backoff_factor : Z
}.

(** A line of console output: [log] prints the colour of the level, a
    timestamp, the level and the message; the level and the message are
    kept. *)
Record LogLine : Type := mkLogLine { level : string; line : string }.

(** The summary and rows of [deployment-test-results.json].  [timestamp]
    is the reading of the clock that [datetime.now().isoformat()]
    renders. *)
Record Summary : Type := mkSummary {
  total_tests : nat;
  passed : nat;
  failed : nat;
  skipped : nat;
  success_rate : float;
  total_duration_ms : float;
  target_url : string;
  timestamp : float
}.

Record Row : Type := mkRow {
  row_test_id : string;
  row_name : string;
  row_status : string;
  row_message : string;
  row_duration_ms : float
}.

Record Report : Type := mkReport { summary : Summary; rows : list Row }.

(** ** The runner and the world it runs in *)

(** [EkkoTestRunner] with what it acts on.  [endpoint n req] is what the
    target gives to the [n]-th attempt put on the wire, [wire] lists
    those attempts, [posted] the requests handed to the HTTP session,
    [clock] is what [time.time()] reads, [disk_error] is the error that
    opening a file for writing raises, if any, and [files] holds what
    was written. *)
Record Runner : Type := mkRunner {
  is_production : bool;
  session : TestSession;
  http_headers : list (string * string);
  max_retries : Retry;
  endpoint : nat -> Request -> Reply;
  wire : list Request;
  posted : list Request;
  clock : float;
  console : list LogLine;
  disk_error : option Exc;
  files : gmap string Report
}.

Definition set_session (f : TestSession -> TestSession) (r : Runner) : Runner :=
  mkRunner (is_production r) (f (session r)) (http_headers r) (max_retries r)
           (endpoint r) (wire r) (posted r) (clock r) (console r)
           (disk_error r) (files r).

Definition set_wire (f : list Request -> list Request) (r : Runner) : Runner :=
  mkRunner (is_production r) (session r) (http_headers r) (max_retries r)
           (endpoint r) (f (wire r)) (posted r) (clock r) (console r)
           (disk_error r) (files r).

Definition set_posted (f : list Request -> list Request) (r : Runner) : Runner :=
  mkRunner (is_production r) (session r) (http_headers r) (max_retries r)
           (endpoint r) (wire r) (f (posted r)) (clock r) (console r)
           (disk_error r) (files r).

Definition set_console (f : list LogLine -> list LogLine) (r : Runner) : Runner :=
  mkRunner (is_production r) (session r) (http_headers r) (max_retries r)
           (endpoint r) (wire r) (posted r) (clock r) (f (console r))
           (disk_error r) (files r).

Definition set_files (f : gmap string Report -> gmap string Report) (r : Runner) : Runner :=
  mkRunner (is_production r) (session r) (http_headers r) (max_retries r)
           (endpoint r) (wire r) (posted r) (clock r) (console r)
           (disk_error r) (f (files r)).

Definition set_http_headers (f : list (string * string) -> list (string * string))
    (r : Runner) : Runner :=
  mkRunner (is_production r) (session r) (f (http_headers r)) (max_retries r)
           (endpoint r) (wire r) (posted r) (clock r) (console r)
           (disk_error r) (files r).

Definition set_tokens (f : gmap string Json -> gmap string Json) (s : TestSession) : TestSession :=
  mkTestSession (accounts s) (f (tokens s)) (base_url s) (results s) (start_time s).

Definition set_results (f : list TestResult -> list TestResult) (s : TestSession) : TestSession :=
  mkTestSession (accounts s) (tokens s) (base_url s) (f (results s)) (start_time s).

(** ** Computations *)

(** A method of the runner: from the state before to how it ended and
    the state after. *)
Definition M (A : Type) : Type := Runner -> Completion A * Runner.

Definition ret {A : Type} (a : A) : M A := fun r => (Returned a, r).

Definition raise {A : Type} (e : Exc) : M A := fun r => (Raised e, r).

Definition bind {A B : Type} (m : M A) (k : A -> M B) : M B :=
  fun r =>
    match m r with
    | (Returned a, r') => k a r'
    | (Raised e, r') => (Raised e, r')
    end.

(** An expression that may raise, evaluated in a method. *)
Definition lift {A : Type} (c : Completion A) : M A := fun r => (c, r).

(** [try: body  except <catches> as e: handler e]. *)
Definition try_except {A : Type} (body : M A) (catches : Exc -> bool) (handler : Exc -> M A) : M A :=
  fun r =>
    match body r with
    | (Raised e, r') => if catches e then handler e r' else (Raised e, r')
    | done => done
    end.

Definition gets {A : Type} (f : Runner -> A) : M A := fun r => (Returned (f r), r).

Definition modify (f : Runner -> Runner) : M unit := fun r => (Returned tt, f r).

#[export] Instance M_ret : MRet M := @ret.
#[export] Instance M_bind : MBind M := fun A B k m => bind m k.

(** [time.time()]. *)
Definition time_time : M float := gets clock.

(** [self.log(message, level)]. *)
Definition log (msg : string) (lvl : string) : M unit :=
  modify (set_console (fun c => c ++ [mkLogLine lvl msg])).

(** [if c: raise e]. *)
Definition raise_if (c : bool) (e : Exc) : M unit :=
  if c then raise e else mret tt.

(** ** The request client *)

(** [d[k] = v] on a dict kept in insertion order. *)
Fixpoint dict_set (k v : string) (d : list (string * string)) : list (string * string) :=
  match d with
  | [] => [(k, v)]
  | (k', v') :: d' => if String.eqb k k' then (k, v) :: d' else (k', v') :: dict_set k v d'
  end.

(** [dict(base, **extra)]: the entries of [extra] win. *)
Definition dict_merge (base extra : list (string * string)) : list (string * string) :=
  foldl (fun d kv => dict_set kv.1 kv.2 d) base extra.

Definition headers_json (d : list (string * string)) : Json :=
  JObj (map (fun kv => (kv.1, JStr kv.2)) d).

(** Modelled from the spec: when an attempt is tried again.  The loop is
    that of the HTTP adapter mounted in [__init__], code of urllib3 and
    requests; the spec (4.1) retries the methods the policy allows when
    the server answers with a status of the fixed set or the transport
    fails, and returns any other status at once. *)
Definition retryable (p : Retry) (req : Request) (rep : Reply) : bool :=
  bool_decide (req_method req ∈ allowed_methods p)
  && match rep with
     | Answer resp => bool_decide (status_code resp ∈ status_forcelist p)
     | Broken _ => true
     end.

(** Modelled from the spec: the bounded retry loop of the mounted adapter
    (see [retryable]).  [n] numbers the attempt on the wire, [retries]
    is what is left of [total]; the result is the last reply and the
    number of attempts made.  The pause between attempts takes time
    only. *)
Fixpoint send (p : Retry) (ep : nat -> Request -> Reply) (req : Request)
    (retries n : nat) : Reply * nat :=
  let rep := ep n req in
  match retries with
  | S k =>
      if retryable p req rep
      then let '(last, made) := send p ep req k (S n) in (last, S made)
      else (rep, 1%nat)
  | O => (rep, 1%nat)
  end.

(** [self.http_session.request(method, url, json=..., headers=...,
    timeout=...)]: the headers of the session with those of the call on
    top, sent through the mounted adapter.  A transport failure that
    outlives the retries is raised as a [RequestException]. *)
Definition http_session_request (method url : string) (body : option Json)
    (headers : list (string * string)) (timeout : Z) : M Response :=
  fun r =>
    let req := mkRequest method url body (dict_merge (http_headers r) headers) timeout in
    let '(rep, made) :=
      send (max_retries r) (endpoint r) req (total (max_retries r)) (length (wire r)) in
    let r' := set_posted (fun l => l ++ [req]) (set_wire (fun l => l ++ replicate made req) r) in
    match rep with
    | Answer resp => (Returned resp, r')
    | Broken what => (Raised (mkExc RequestException what), r')
    end.

Definition login_mutation : string :=
"
        mutation Login($input: AuthInput!) {
            login(input: $input) {
                token
                user {
                    id
                    email
                    name
                }
                expiresAt
            }
        }
        ".

Section Script.

(** Functions of the Python library the script calls to render text:
    [json.dumps], and the format specifications [.0f] and [.1f]. *)
Variable json_dumps : Json -> string.
Variables format_0f format_1f : float -> string.

(** The [except] clauses of [make_graphql_request], tried in order;
    [response] is the local variable of that name, bound once the post
    has returned. *)
Definition make_graphql_request_except (response : option Response) (e : Exc) : M Json :=
  if is_RequestException (exc_class e) then
    log ("Request error: " +:+ exc_str e) "ERROR";;
    raise (mkExc Exception_ ("Network request failed: " +:+ exc_str e))
  else if is_JSONDecodeError (exc_class e) then
    log ("JSON decode error: " +:+ exc_str e) "ERROR";;
    match response with
    | Some resp => log ("Response content: " +:+ str_take 500 (text resp)) "ERROR"
    | None => raise (mkExc (OtherException "UnboundLocalError")
                       "local variable 'response' referenced before assignment")
    end;;
    raise (mkExc Exception_ ("Invalid JSON response: " +:+ exc_str e))
  else raise e.

Definition make_graphql_request (query : string) (variables : option Json)
    (token : option string) : M Json :=
  let headers :=
    match token with
    | Some t => if String.eqb t "" then [] else [("Authorization", "Bearer " +:+ t)]
    | None => []
    end in
  let payload :=
    JObj (("query", JStr query)
          :: match variables with
             | Some v => if truthy v then [("variables", v)] else []
             | None => []
             end) in
  url ← gets (fun r => base_url (session r) +:+ "/api/graphql");
  log ("Making GraphQL request to: " +:+ url) "INFO";;
  session_headers ← gets http_headers;
  log ("Headers: " +:+ json_dumps (headers_json (dict_merge session_headers headers))) "INFO";;
  ((fun r =>
    match http_session_request "POST" url (Some payload) headers 30 r with
    | (Raised e, r1) => make_graphql_request_except None e r1
    | (Returned response, r1) =>
        match (log ("Response status: " +:+ str_of_Z (status_code response)) "INFO";;
               raise_if (negb (Z.eqb (status_code response) 200))
                 (mkExc Exception_
                    ("GraphQL request failed: " +:+ str_of_Z (status_code response)
                     +:+ " " +:+ reason response));;
               lift (match json response with
                     | inr v => Returned v
                     | inl e => Raised e
                     end)) r1 with
        | (Raised e, r2) => make_graphql_request_except (Some response) e r2
        | done => done
        end
    end) : M Json).

(** ** The token cache *)

Definition authenticate_user (account_key : string) : M Json :=
  cached ← gets (fun r => tokens (session r) !! account_key);
  match cached with
  | Some token => mret token
  | None =>
      found ← gets (fun r => accounts (session r) !! account_key);
      match found with
      | None => raise (mkExc KeyError (py_repr account_key))
      | Some account =>
          let variables :=
            JObj [("input", JObj [("email", JStr (email account));
                                  ("password", JStr (password account))])] in
          response ← make_graphql_request login_mutation (Some variables) None;
          has_errors ← lift (py_in "errors" response);
          (if has_errors : bool then
             errors ← lift (py_getitem response "errors");
             raise (mkExc Exception_ ("Authentication failed: " +:+ json_dumps errors))
           else mret tt);;
          data ← lift (py_get response "data" (JObj []));
          login ← lift (py_get data "login" (JObj []));
          got ← lift (py_get login "token" JNull);
          raise_if (negb (truthy got)) (mkExc Exception_ "Login failed: No token received");;
          data ← lift (py_getitem response "data");
          login ← lift (py_getitem data "login");
          token ← lift (py_getitem login "token");
          modify (set_session (set_tokens (fun t => <[account_key := token]> t)));;
          log ("Successfully authenticated " +:+ email account) "SUCCESS";;
          mret token
      end
  end.

(** ** The test runner *)

Definition append_result (res : TestResult) : M unit :=
  modify (set_session (set_results (fun l => l ++ [res]))).

Definition ms (d : float) : string := format_0f (d * 1000)%float +:+ "ms".

Definition run_test (test_id name : string) (test_function : M unit) : M unit :=
  start_time ← time_time;
  log ("Starting test: " +:+ test_id +:+ " - " +:+ name) "INFO";;
  try_except
    (test_function;;
     now ← time_time;
     let duration := (now - start_time)%float in
     append_result (mkTestResult test_id name "PASS" "Test completed successfully" duration);;
     log ("✅ PASS: " +:+ test_id +:+ " - " +:+ name +:+ " (" +:+ ms duration +:+ ")") "SUCCESS")
    (fun e => is_Exception (exc_class e))
    (fun e =>
       now ← time_time;
       let duration := (now - start_time)%float in
       let message := exc_str e in
       append_result (mkTestResult test_id name "FAIL" message duration);;
       log ("❌ FAIL: " +:+ test_id +:+ " - " +:+ name +:+ " (" +:+ ms duration +:+ "): "
            +:+ message) "ERROR").


(** ** Construction *)

(** What the process finds when it starts: the target, the clock, the
    disk, the value of [VERCEL_PROTECTION_BYPASS] and the headers of a
    fresh [requests.Session()]. *)
Record World : Type := mkWorld {
  w_endpoint : nat -> Request -> Reply;
  w_clock : float;
  w_disk_error : option Exc;
  w_bypass : option string;
  w_session_headers : list (string * string)
}.

Definition fixed_accounts : gmap string TestAccount :=
  list_to_map
    [("admin", mkTestAccount "admin@ekko.earth" "Password123!");
     ("london_manager", mkTestAccount "london.manager@ekko.earth" "Password123!");
     ("manchester_manager", mkTestAccount "manchester.manager@ekko.earth" "Password123!");
     ("westminster_staff", mkTestAccount "westminster.staff@ekko.earth" "Password123!");
     ("camden_staff", mkTestAccount "camden.staff@ekko.earth" "Password123!");
     ("citycentre_staff", mkTestAccount "citycentre.staff@ekko.earth" "Password123!")].

Definition retry_strategy : Retry :=
  mkRetry 3 [429; 500; 502; 503; 504] ["HEAD"; "GET"; "POST"; "OPTIONS"] 1.

(** [headers.update(extra)]. *)
Definition update_headers (extra : list (string * string)) : M unit :=
  modify (set_http_headers (fun h => dict_merge h extra)).

(** [EkkoTestRunner.__init__]. *)
Definition EkkoTestRunner_init (w : World) (base_url : string) (is_production : bool) : Runner :=
  let fresh :=
    mkRunner is_production
      (mkTestSession fixed_accounts ∅ (rstrip_slash base_url) [] (w_clock w))
      (w_session_headers w) retry_strategy
      (w_endpoint w) [] [] (w_clock w) [] (w_disk_error w) ∅ in
  snd ((update_headers [("User-Agent", "Ekko-Test-Runner/1.0-Python");
                        ("Content-Type", "application/json")];;
        (if is_production then
           match w_bypass w with
           | Some bypass_secret =>
               if String.eqb bypass_secret "" then
                 log "No bypass secret found in VERCEL_PROTECTION_BYPASS for production" "WARN"
               else
                 update_headers [("x-vercel-protection-bypass", bypass_secret)];;
                 log ("Using bypass secret: " +:+ str_take 8 bypass_secret +:+ "...") "INFO"
           | None =>
               log "No bypass secret found in VERCEL_PROTECTION_BYPASS for production" "WARN"
           end
         else mret tt);;
        let db_type := if is_production then "PostgreSQL" else "SQLite" in
        let env_type := if is_production then "Production" else "Local Development" in
        log ("Environment: " +:+ env_type +:+ " (" +:+ db_type +:+ ")") "INFO") fresh).

(** ** The phases *)

Definition check_deployment_access : M bool :=
  try_except
    (url ← gets (fun r => base_url (session r) +:+ "/login");
     response ← http_session_request "GET" url None [] 10;
     if bool_decide (status_code response ∈ [401; 403]) then
       log "Deployment is protected by authentication" "WARN";; mret false
     else if negb (Z.eqb (status_code response) 200) then
       log ("Unexpected response: " +:+ str_of_Z (status_code response)) "WARN";; mret false
     else
       log "Deployment is accessible" "SUCCESS";; mret true)
    (fun e => is_Exception (exc_class e))
    (fun e => log ("Failed to access deployment: " +:+ exc_str e) "ERROR";; mret false).

(** The bodies of the checks, methods of the runner that the phases
    hand to [run_test]. *)
Record TestBodies : Type := mkTestBodies {
  test_authentication : M unit;
  test_hierarchical_permissions : M unit;
  test_cqrs_routing : M unit;
  test_organization_tree_queries : M unit;
  test_role_based_access_control : M unit;
  test_data_isolation : M unit;
  test_audit_logging : M unit;
  test_error_handling : M unit;
  test_production_infrastructure : M unit;
  test_performance_optimization : M unit;
  test_advanced_permission_management : M unit;
  test_materialized_view_refresh : M unit;
  test_create_user : M unit;
  test_create_organization_node : M unit;
  test_grant_permission : M unit;
  test_update_user : M unit;
  test_update_organization_structure : M unit;
  test_modify_permissions : M unit;
  test_activate_deactivate_users : M unit;
  test_delete_users : M unit;
  test_delete_organization_nodes : M unit;
  test_revoke_permissions : M unit
}.

Variable self : TestBodies.

Definition run_phase1_tests : M unit :=
  log "=== Starting Phase 1 Tests ===" "INFO";;
  run_test "P1T1" "User Authentication" (test_authentication self);;
  run_test "P1T2" "Hierarchical Permissions" (test_hierarchical_permissions self);;
  run_test "P1T3" "CQRS Routing" (test_cqrs_routing self);;
  run_test "P1T4" "Organization Tree Queries" (test_organization_tree_queries self);;
  run_test "P1T5" "Role-Based Access Control" (test_role_based_access_control self);;
  run_test "P1T6" "Data Isolation" (test_data_isolation self);;
  run_test "P1T7" "Audit Logging" (test_audit_logging self);;
  run_test "P1T8" "Error Handling" (test_error_handling self).

Definition run_phase2_tests : M unit :=
  log "=== Starting Phase 2 Tests ===" "INFO";;
  run_test "P2T1" "Production Infrastructure" (test_production_infrastructure self);;
  run_test "P2T2" "Performance Optimization" (test_performance_optimization self);;
  run_test "P2T3" "Advanced Permission Management" (test_advanced_permission_management self);;
  run_test "P2T4" "Materialized View Refresh" (test_materialized_view_refresh self).

Definition run_phase3_tests : M unit :=
  log "=== Starting Phase 3 CRUD Tests ===" "INFO";;
  run_test "P3T1" "Create New User" (test_create_user self);;
  run_test "P3T2" "Create New Organization Node" (test_create_organization_node self);;
  run_test "P3T3" "Grant New Permission" (test_grant_permission self);;
  run_test "P3T4" "Update User Information" (test_update_user self);;
  run_test "P3T5" "Update Organization Structure" (test_update_organization_structure self);;
  run_test "P3T6" "Modify Existing Permissions" (test_modify_permissions self);;
  run_test "P3T7" "Activate/Deactivate Users" (test_activate_deactivate_users self);;
  run_test "P3T8" "Delete Users (Soft Delete)" (test_delete_users self);;
  run_test "P3T9" "Delete Organization Nodes" (test_delete_organization_nodes self);;
  run_test "P3T10" "Revoke Permissions" (test_revoke_permissions self).

(** ** The report *)

(** [len([r for r in results if r.status == st])]. *)
Definition count_status (st : string) (l : list TestResult) : nat :=
  length (filter (fun r => status r = st) l).

(** [float(n)] for a count (exact below 2^53). *)
Definition float_of_nat (n : nat) : float := PrimFloat.of_uint63 (Uint63.of_Z (Z.of_nat n)).

Definition str_of_nat (n : nat) : string := str_of_Z (Z.of_nat n).

(** [(passed / total_tests * 100) if total_tests > 0 else 0], in binary64
    as Python computes it; the integer 0 of the last branch is the float
    zero here. *)
Definition rate (passed total_tests : nat) : float :=
  if (0 <? total_tests)%nat
  then (float_of_nat passed / float_of_nat total_tests * 100)%float
  else 0%float.

Definition report_row (r : TestResult) : Row :=
  mkRow (test_id r) (name r) (status r) (message r) (duration r * 1000)%float.

(** [for x in l: body x]. *)
Fixpoint for_each {A : Type} (l : list A) (body : A -> M unit) : M unit :=
  match l with
  | [] => mret tt
  | x :: l' => body x;; for_each l' body
  end.

(** [with open(path, 'w') as f: json.dump(report, f, indent=2)]. *)
Definition write_report (path : string) (report : Report) : M unit :=
  err ← gets disk_error;
  match err with
  | Some e => raise e
  | None => modify (set_files (fun fs => <[path := report]> fs))
  end.

Definition generate_report : M bool :=
  res ← gets (fun r => results (session r));
  let total_tests := length res in
  let passed := count_status "PASS" res in
  let failed := count_status "FAIL" res in
  let skipped := count_status "SKIP" res in
  now ← time_time;
  started ← gets (fun r => start_time (session r));
  let total_duration := (now - started)%float in
  let success_rate := rate passed total_tests in
  log "=== Test Results Summary ===" "INFO";;
  log ("Total Tests: " +:+ str_of_nat total_tests) "INFO";;
  log ("Passed: " +:+ str_of_nat passed) "SUCCESS";;
  log ("Failed: " +:+ str_of_nat failed) "ERROR";;
  log ("Skipped: " +:+ str_of_nat skipped) "INFO";;
  log ("Total Duration: " +:+ ms total_duration) "INFO";;
  log ("Success Rate: " +:+ format_1f success_rate +:+ "%") "INFO";;
  (if (0 <? failed)%nat then
     log "=== Failed Tests Details ===" "ERROR";;
     for_each res (fun result =>
       if String.eqb (status result) "FAIL"
       then log (test_id result +:+ ": " +:+ message result) "ERROR"
       else mret tt)
   else mret tt);;
  target ← gets (fun r => base_url (session r));
  stamp ← time_time;
  let report :=
    mkReport
      (mkSummary total_tests passed failed skipped success_rate
                 (total_duration * 1000)%float target stamp)
      (map report_row res) in
  write_report "deployment-test-results.json" report;;
  log "Detailed report saved to: deployment-test-results.json" "INFO";;
  mret (Nat.eqb failed 0).

Definition run : M bool :=
  log "Starting Ekko Permissions System Test Suite" "INFO";;
  target ← gets (fun r => base_url (session r));
  log ("Target URL: " +:+ target) "INFO";;
  known ← gets (fun r => size (accounts (session r)));
  log ("Test Accounts: " +:+ str_of_nat known) "INFO";;
  log ("Checking deployment access at " +:+ target) "INFO";;
  accessible ← check_deployment_access;
  (if accessible : bool then mret tt
   else log "Deployment is protected - tests may be limited" "WARN");;
  run_phase1_tests;;
  run_phase2_tests;;
  run_phase3_tests;;
  generate_report.

(** [main], from the construction of the runner on: [target_url] and
    [is_production] are what the command line and the environment
    select, and the two lines [main] prints before are left out.  The
    value returned is the status handed to [sys.exit]. *)
Definition main (w : World) (target_url : string) (is_production : bool) : Completion Z * Runner :=
  let runner := EkkoTestRunner_init w target_url is_production in
  (success ← run; mret (if success : bool then 0 else 1)) runner.

(** ** Schedules *)

(** The statements of a phase: a banner line, or a call of [run_test]. *)
Inductive Step : Type :=
| Banner (msg : string)
| Test (id title : string) (check : M unit).

Definition run_step (s : Step) : M unit :=
  match s with
  | Banner msg => log msg "INFO"
  | Test id title check => run_test id title check
  end.

(** The statements one after the other. *)
Fixpoint run_plan (plan : list Step) : M unit :=
  match plan with
  | [] => mret tt
  | s :: rest =>
      match rest with
      | [] => run_step s
      | _ => run_step s;; run_plan rest
      end
  end.

Definition phase1 : list Step :=
  [Banner "=== Starting Phase 1 Tests ===";
   Test "P1T1" "User Authentication" (test_authentication self);
   Test "P1T2" "Hierarchical Permissions" (test_hierarchical_permissions self);
   Test "P1T3" "CQRS Routing" (test_cqrs_routing self);
   Test "P1T4" "Organization Tree Queries" (test_organization_tree_queries self);
   Test "P1T5" "Role-Based Access Control" (test_role_based_access_control self);
   Test "P1T6" "Data Isolation" (test_data_isolation self);
   Test "P1T7" "Audit Logging" (test_audit_logging self);
   Test "P1T8" "Error Handling" (test_error_handling self)].

Definition phase2 : list Step :=
  [Banner "=== Starting Phase 2 Tests ===";
   Test "P2T1" "Production Infrastructure" (test_production_infrastructure self);
   Test "P2T2" "Performance Optimization" (test_performance_optimization self);
   Test "P2T3" "Advanced Permission Management" (test_advanced_permission_management self);
   Test "P2T4" "Materialized View Refresh" (test_materialized_view_refresh self)].

Definition phase3 : list Step :=
  [Banner "=== Starting Phase 3 CRUD Tests ===";
   Test "P3T1" "Create New User" (test_create_user self);
   Test "P3T2" "Create New Organization Node" (test_create_organization_node self);
   Test "P3T3" "Grant New Permission" (test_grant_permission self);
   Test "P3T4" "Update User Information" (test_update_user self);
   Test "P3T5" "Update Organization Structure" (test_update_organization_structure self);
   Test "P3T6" "Modify Existing Permissions" (test_modify_permissions self);
   Test "P3T7" "Activate/Deactivate Users" (test_activate_deactivate_users self);
   Test "P3T8" "Delete Users (Soft Delete)" (test_delete_users self);
   Test "P3T9" "Delete Organization Nodes" (test_delete_organization_nodes self);
   Test "P3T10" "Revoke Permissions" (test_revoke_permissions self)].

(** A schedule followed by the report, as [run] does with its phases. *)
Definition run_suite (plan : list Step) : M bool :=
  run_plan plan;; generate_report.

(** Calls of [authenticate_user] one after the other, as the checks of
    a run make them; a call that raises is recorded and the next one
    still runs, since [run_test] catches what a check raises.  Each
    entry holds the key, how the call ended and the number of requests
    the call handed to the HTTP session. *)
Fixpoint authenticate_each (keys : list string) (r : Runner)
    : list (string * Completion Json * nat) * Runner :=
  match keys with
  | [] => ([], r)
  | key :: rest =>
      let '(done, r1) := authenticate_user key r in
      let '(trace, r2) := authenticate_each rest r1 in
      ((key, done, (length (posted r1) - length (posted r))%nat) :: trace, r2)
  end.

End Script.

(** The identifiers of the tests of a schedule, in order. *)
Fixpoint plan_ids (plan : list Step) : list string :=
  match plan with
  | [] => []
  | Banner _ :: rest => plan_ids rest
  | Test id _ _ :: rest => id :: plan_ids rest
  end.

(** The check leaves the list of results as it found it. *)
Definition keeps_results (check : M unit) : Prop :=
  forall r, results (session (check r).2) = results (session r).

Definition step_keeps_results (s : Step) : Prop :=
  match s with
  | Banner _ => True
  | Test _ _ check => keeps_results check
  end.

Definition bodies (self : TestBodies) : list (M unit) :=
  [test_authentication self; test_hierarchical_permissions self; test_cqrs_routing self;
   test_organization_tree_queries self; test_role_based_access_control self;
   test_data_isolation self; test_audit_logging self; test_error_handling self;
   test_production_infrastructure self; test_performance_optimization self;
   test_advanced_permission_management self; test_materialized_view_refresh self;
   test_create_user self; test_create_organization_node self; test_grant_permission self;
   test_update_user self; test_update_organization_structure self;
   test_modify_permissions self; test_activate_deactivate_users self;
   test_delete_users self; test_delete_organization_nodes self;
   test_revoke_permissions self].

(** The outcome is a pass or a failure. *)
Definition pass_or_fail (o : TestResult) : Prop := status o = "PASS" \/ status o = "FAIL".

(** What the summary of a report says about a list of results. *)
Definition summarises (report : Report) (res : list TestResult) : Prop :=
  rows report = map report_row res
  /\ total_tests (summary report) = length res
  /\ passed (summary report) = count_status "PASS" res
  /\ failed (summary report) = count_status "FAIL" res
  /\ skipped (summary report) = count_status "SKIP" res
  /\ success_rate (summary report)
     = rate (passed (summary report)) (total_tests (summary report)).

(** The file [generate_report] writes. *)
Definition report_path : string := "deployment-test-results.json".

(** The identifiers [run] hands to [run_test], in the order of the calls. *)
Definition scheduled_ids : list string :=
  ["P1T1"; "P1T2"; "P1T3"; "P1T4"; "P1T5"; "P1T6"; "P1T7"; "P1T8";
   "P2T1"; "P2T2"; "P2T3"; "P2T4";
   "P3T1"; "P3T2"; "P3T3"; "P3T4"; "P3T5"; "P3T6"; "P3T7"; "P3T8"; "P3T9"; "P3T10"].


(** ** Checks of the phases *)

(** Some of the methods the phases hand to [run_test]. *)
Module Checks.
Section Bodies.

Variable json_dumps : Json -> string.

(** [str(v)] for the values that are neither text, integer, boolean nor
    [None]; Python renders none of them as the empty text. *)
Variable str_other : Json -> string.

(** [str(v)], as an f-string renders a value. *)
Definition py_str (v : Json) : string :=
  match v with
  | JStr s => s
  | JInt n => str_of_Z n
  | JBool b => if b then "True" else "False"
  | JNull => "None"
  | _ => str_other v
  end.

(** A value handed over as [token=...]: [make_graphql_request] tests its
    truth and renders it after [Bearer]. *)
Definition token_arg (v : Json) : option string :=
  if truthy v then Some (py_str v) else None.

Definition test_authentication : M unit :=
  admin_token ← authenticate_user json_dumps "admin";
  raise_if (negb (truthy admin_token))
    (mkExc Exception_ "Failed to authenticate admin user");;
  manager_token ← authenticate_user json_dumps "london_manager";
  raise_if (negb (truthy manager_token))
    (mkExc Exception_ "Failed to authenticate manager user");;
  staff_token ← authenticate_user json_dumps "westminster_staff";
  raise_if (negb (truthy staff_token))
    (mkExc Exception_ "Failed to authenticate staff user").

Definition data_isolation_query : string :=
"
        query GetAccessibleUsers {
            users {
                edges {
                    node {
                        id
                        email
                        organizationNode {
                            id
                            name
                        }
                    }
                }
                totalCount
            }
        }
        ".

Definition test_data_isolation : M unit :=
  london_manager_token ← authenticate_user json_dumps "london_manager";
  manchester_manager_token ← authenticate_user json_dumps "manchester_manager";
  london_response ←
    make_graphql_request json_dumps data_isolation_query None (token_arg london_manager_token);
  manchester_response ←
    make_graphql_request json_dumps data_isolation_query None
      (token_arg manchester_manager_token);
  london_errors ← lift (py_in "errors" london_response);
  (if london_errors : bool then
     errors ← lift (py_getitem london_response "errors");
     raise (mkExc Exception_ ("London manager query failed: " +:+ json_dumps errors))
   else mret tt);;
  manchester_errors ← lift (py_in "errors" manchester_response);
  (if manchester_errors : bool then
     errors ← lift (py_getitem manchester_response "errors");
     raise (mkExc Exception_ ("Manchester manager query failed: " +:+ json_dumps errors))
   else mret tt).

Definition test_audit_logging : M unit :=
  admin_token ← authenticate_user json_dumps "admin";
  try_except
    (url ← gets (fun r => base_url (session r) +:+ "/api/audit");
     audit_response ←
       http_session_request "GET" url None
         [("Authorization", "Bearer " +:+ py_str admin_token)] 10;
     if Z.eqb (status_code audit_response) 404 then
       log "Audit endpoint not found - audit logging may be implemented differently" "WARN"
     else if negb (Z.eqb (status_code audit_response) 200) then
       log ("Audit endpoint returned " +:+ str_of_Z (status_code audit_response)) "WARN"
     else mret tt)
    (fun e => is_Exception (exc_class e))
    (fun e => log "Could not verify audit logging implementation" "WARN").

Definition invalid_mutation : string :=
"
        mutation Login($input: AuthInput!) {
            login(input: $input) {
                token
            }
        }
        ".

Definition test_error_handling : M unit :=
  let variables :=
    JObj [("input", JObj [("email", JStr "invalid@example.com");
                          ("password", JStr "wrongpassword")])] in
  try_except
    (response ← make_graphql_request json_dumps invalid_mutation (Some variables) None;
     has_errors ← lift (py_in "errors" response);
     raise_if (negb has_errors)
       (mkExc Exception_ "Expected authentication error but got success"))
    (fun e => is_Exception (exc_class e))
    (fun e =>
       if str_contains "Network request failed" (exc_str e) then raise e else mret tt).

Definition db_test_query : string :=
"
        query TestDatabaseConnection {
            users {
                totalCount
            }
        }
        ".

(** The [try] block returns [true] where the method returns from inside
    it. *)
Definition test_production_infrastructure : M unit :=
  returned ←
    try_except
      (url ← gets (fun r => base_url (session r) +:+ "/api/health");
       health_response ← http_session_request "GET" url None [] 10;
       if Z.eqb (status_code health_response) 404 then
         log "Health check endpoint not implemented" "WARN";; mret true
       else
         raise_if (negb (Z.eqb (status_code health_response) 200))
           (mkExc Exception_
              ("Health check failed: " +:+ str_of_Z (status_code health_response)));;
         mret false)
      (fun e => is_RequestException (exc_class e))
      (fun e => raise (mkExc Exception_ ("Health check request failed: " +:+ exc_str e)));
  if returned : bool then mret tt
  else
    admin_token ← authenticate_user json_dumps "admin";
    response ← make_graphql_request json_dumps db_test_query None (token_arg admin_token);
    has_errors ← lift (py_in "errors" response);
    if has_errors : bool then
      errors ← lift (py_getitem response "errors");
      raise (mkExc Exception_ ("Database connectivity test failed: " +:+ json_dumps errors))
    else mret tt.

Definition default_cron_secret : string := "BSZmX2Xx6XjREN3BjnF6Eb7qSQDz17wu7DmCFxEPBsg=".

(** [env_cron_secret] is the value of [CRON_SECRET] in the environment,
    if it is set. *)
Definition test_materialized_view_refresh (env_cron_secret : option string) : M unit :=
  let cron_secret := default default_cron_secret env_cron_secret in
  try_except
    (url ← gets (fun r => base_url (session r) +:+ "/api/cron/refresh-materialized-views");
     refresh_response ←
       http_session_request "POST" url None [("Authorization", "Bearer " +:+ cron_secret)] 30;
     if Z.eqb (status_code refresh_response) 404 then
       log "Materialized view refresh endpoint not found" "WARN"
     else
       raise_if (negb (Z.eqb (status_code refresh_response) 200))
         (mkExc Exception_
            ("Materialized view refresh failed: "
             +:+ str_of_Z (status_code refresh_response)));;
       log "Materialized view refresh completed successfully" "SUCCESS")
    (fun e => is_RequestException (exc_class e))
    (fun e =>
       raise (mkExc Exception_ ("Materialized view refresh request failed: " +:+ exc_str e))).

End Bodies.
End Checks.

(** The request [make_graphql_request] builds in the state [r]. *)
Definition graphql_request (query : string) (variables : option Json)
    (token : option string) (r : Runner) : Request :=
  mkRequest "POST" (base_url (session r) +:+ "/api/graphql")
    (Some (JObj (("query", JStr query)
                 :: match variables with
                    | Some v => if truthy v then [("variables", v)] else []
                    | None => []
                    end)))
    (dict_merge (http_headers r)
       match token with
       | Some t => if String.eqb t "" then [] else [("Authorization", "Bearer " +:+ t)]
       | None => []
       end)
    30.

(** The variables [authenticate_user] sends with the login mutation. *)
Definition login_variables (account : TestAccount) : Json :=
  JObj [("input", JObj [("email", JStr (email account));
                        ("password", JStr (password account))])].

(** [response.get('data', {}).get('login', {}).get('token')]. *)
Definition login_token (response : Json) : Completion Json :=
  match py_get response "data" (JObj []) with
  | Returned data =>
      match py_get data "login" (JObj []) with
      | Returned login => py_get login "token" JNull
      | Raised e => Raised e
      end
  | Raised e => Raised e
  end.

(** The answer is an object without errors that holds a true value
    under data, login, token: what a login that succeeds decodes to. *)
Definition accepts_login (v : Json) : Prop :=
  exists members data login token,
    v = JObj members
    /\ assoc "errors" members = None
    /\ assoc "data" members = Some (JObj data)
    /\ assoc "login" data = Some (JObj login)
    /\ assoc "token" login = Some token
    /\ truthy token = true.

(** The text of [n] slashes. *)
Fixpoint slashes (n : nat) : string :=
  match n with
  | O => EmptyString
  | S k => String "/"%char (slashes k)
  end.

(** The lines [generate_report] prints for the results [res], the run
    having taken [total_duration]. *)
Definition summary_lines (format_0f format_1f : float -> string) (res : list TestResult)
    (total_duration : float) : list LogLine :=
  [mkLogLine "INFO" "=== Test Results Summary ===";
   mkLogLine "INFO" ("Total Tests: " +:+ str_of_nat (length res));
   mkLogLine "SUCCESS" ("Passed: " +:+ str_of_nat (count_status "PASS" res));
   mkLogLine "ERROR" ("Failed: " +:+ str_of_nat (count_status "FAIL" res));
   mkLogLine "INFO" ("Skipped: " +:+ str_of_nat (count_status "SKIP" res));
   mkLogLine "INFO" ("Total Duration: " +:+ ms format_0f total_duration);
   mkLogLine "INFO"
     ("Success Rate: " +:+ format_1f (rate (count_status "PASS" res) (length res)) +:+ "%")].

(** The lines that list the failures of [res], one for each, in the
    order of [res]. *)
Definition failure_lines (res : list TestResult) : list LogLine :=
  map (fun o => mkLogLine "ERROR" (test_id o +:+ ": " +:+ message o))
      (filter (fun o => status o = "FAIL") res).

(** The check raises nothing but exceptions that derive from
    [Exception], and leaves the disk as it is. *)
Definition well_behaved (check : M unit) : Prop :=
  forall r,
    disk_error (check r).2 = disk_error r
    /\ match (check r).1 with
       | Returned _ => True
       | Raised e => is_Exception (exc_class e) = true
       end.

Definition step_well_behaved (s : Step) : Prop :=
  match s with
  | Banner _ => True
  | Test _ _ check => well_behaved check
  end.

(** The status is one of the three the report counts. *)
Definition counted (o : TestResult) : Prop :=
  status o = "PASS" \/ status o = "FAIL" \/ status o = "SKIP".

(** Every cached token is a true value. *)
Definition tokens_truthy (r : Runner) : Prop :=
  forall key token, tokens (session r) !! key = Some token -> truthy token = true.

(** ** Sample worlds and checks *)

Module Sample.

(** Stand-ins for the text renderings of the Python library. *)
Definition dumps (v : Json) : string := "[...]".
Definition digits (x : float) : string := "0".

Definition world (ep : nat -> Request -> Reply) : World :=
  mkWorld ep 0%float None None [("User-Agent", "python-requests/2.31.0")].

Definition not_json : Exc := mkExc JSONDecodeError "Expecting value: line 1 column 1 (char 0)".

Definition ok (v : Json) : Response := mkResponse 200 "OK" "{...}" (inr v).
Definition busy : Response := mkResponse 503 "Service Unavailable" "" (inl not_json).
Definition missing : Response := mkResponse 404 "Not Found" "" (inl not_json).
Definition denied : Response := mkResponse 401 "Unauthorized" "" (inl not_json).


Definition login_ok : Json := JObj [("data", JObj [("login", JObj [("token", JStr "abc")])])].

(** A runner on a target that answers every attempt with [resp]. *)
Definition runner_on (resp : Response) : Runner :=
  EkkoTestRunner_init (world (fun _ _ => Answer resp)) "http://localhost:3000" false.

(** A runner on a target that answers 503 twice, then 200. *)
Definition runner_on_flaky : Runner :=
  EkkoTestRunner_init
    (world (fun n _ => if (n <? 2)%nat then Answer busy else Answer (ok login_ok)))
    "http://localhost:3000" false.

Definition passing : M unit := mret tt.
Definition failing (msg : string) : M unit := raise (mkExc Exception_ msg).
Definition bare_assert : M unit := raise (mkExc AssertionError "").
Definition interrupted : M unit := raise (mkExc KeyboardInterrupt "").


(** Bodies for a whole run: two checks fail, the others pass. *)
Definition mixed_bodies : TestBodies :=
  mkTestBodies passing (failing "boom") passing passing passing passing passing passing
               passing passing (failing "No users returned from read operation") passing
               passing passing passing passing passing passing passing passing passing
               passing.

(** A schedule of ten checks, two of which fail. *)
Definition ten_checks : list Step :=
  [Banner "=== Ten checks ===";
   Test "T1" "first" passing; Test "T2" "second" (failing "boom"); Test "T3" "third" passing;
   Test "T4" "fourth" passing; Test "T5" "fifth" passing; Test "T6" "sixth" bare_assert;
   Test "T7" "seventh" passing; Test "T8" "eighth" passing; Test "T9" "ninth" passing;
   Test "T10" "tenth" passing].

End Sample.

(** * Theorems *)

(** ** Steps of the monad *)

Ltac step_monad :=
  unfold mbind, M_bind, bind, mret, M_ret, ret, raise_if, time_time, log, try_except,
    raise, lift, gets, modify in *; cbn [fst snd] in *.

Lemma bind_returned {A B : Type} (m : M A) (k : A -> M B) r b r' :
  (m ≫= k) r = (Returned b, r') ->
  exists a r1, m r = (Returned a, r1) /\ k a r1 = (Returned b, r').
Proof.
  unfold mbind, M_bind, bind. destruct (m r) as [[a|e] r1]; [eauto | discriminate].
Qed.

Lemma bind_run {A B : Type} (m : M A) (k : A -> M B) r a r1 :
  m r = (Returned a, r1) -> (m ≫= k) r = k a r1.
Proof. intros E. unfold mbind, M_bind, bind. now rewrite E. Qed.

Lemma bind_raised {A B : Type} (m : M A) (k : A -> M B) r e r1 :
  m r = (Raised e, r1) -> (m ≫= k) r = (Raised e, r1).
Proof. intros E. unfold mbind, M_bind, bind. now rewrite E. Qed.

(** ** The test runner *)

(** C1: [run_test] runs the check once and then, when the check returns,
    appends one PASS outcome with the fixed message and returns; when
    the check raises an exception that derives from [Exception], appends
    one FAIL outcome whose message is the description of the exception
    and returns; and when the check raises an exception that does not
    derive from [Exception], appends nothing and lets it through. *)
Theorem run_test_records_one_outcome (format_0f : float -> string) (id title : string)
    (check : M unit) (r : Runner) :
  let r0 := (log ("Starting test: " +:+ id +:+ " - " +:+ title) "INFO" r).2 in
  match check r0 with
  | (Returned _, r1) =>
      (run_test format_0f id title check r).1 = Returned tt /\
      results (session (run_test format_0f id title check r).2)
      = results (session r1)
        ++ [mkTestResult id title "PASS" "Test completed successfully" (clock r1 - clock r)%float]
  | (Raised e, r1) =>
      if is_Exception (exc_class e) then
        (run_test format_0f id title check r).1 = Returned tt /\
        results (session (run_test format_0f id title check r).2)
        = results (session r1)
          ++ [mkTestResult id title "FAIL" (exc_str e) (clock r1 - clock r)%float]
      else run_test format_0f id title check r = (Raised e, r1)
  end.
Proof.
  unfold run_test, append_result. step_monad. cbn.
  destruct (check _) as [[[]|e] r1]; cbn.
  - split; reflexivity.
  - destruct (is_Exception (exc_class e)); cbn; [split|]; reflexivity.
Qed.

(** C1, the claim as written fails: a check that is interrupted (it
    raises [KeyboardInterrupt], which does not derive from [Exception])
    makes [run_test] raise, and no outcome is appended. *)
Lemma run_test_lets_interrupt_through :
  run_test Sample.digits "P1T1" "User Authentication" Sample.interrupted
    (Sample.runner_on Sample.denied)
  = (Raised (mkExc KeyboardInterrupt ""),
     (log "Starting test: P1T1 - User Authentication" "INFO" (Sample.runner_on Sample.denied)).2)
  /\ results (session (run_test Sample.digits "P1T1" "User Authentication" Sample.interrupted
                         (Sample.runner_on Sample.denied)).2) = [].
Proof. split; reflexivity. Qed.

(** C8: when the check returns, the outcome [run_test] appends has status
    PASS; when the check raises an exception that derives from
    [Exception] and has a description that is not empty, the outcome has
    status FAIL and a message that is not empty. *)
Theorem run_test_status (format_0f : float -> string) (id title : string)
    (check : M unit) (r : Runner) (done : Completion unit) (r1 : Runner) :
  check (log ("Starting test: " +:+ id +:+ " - " +:+ title) "INFO" r).2 = (done, r1) ->
  (forall e, done = Raised e -> is_Exception (exc_class e) = true /\ exc_str e <> "") ->
  exists o,
    last (results (session (run_test format_0f id title check r).2)) = Some o /\
    match done with
    | Returned _ => status o = "PASS"
    | Raised _ => status o = "FAIL" /\ message o <> ""
    end.
Proof.
  intros Hcheck Hexc. unfold run_test, append_result. step_monad. cbn in *.
  rewrite Hcheck. destruct done as [[]|e]; cbn.
  - eexists. rewrite last_snoc. split; reflexivity.
  - destruct (Hexc e eq_refl) as [-> Hstr]. cbn.
    eexists. rewrite last_snoc. repeat split; assumption.
Qed.

(** A check that raises "boom" is recorded as a FAIL with a message. *)
Lemma run_test_status_witness :
  exists o,
    last (results (session (run_test Sample.digits "P1T2" "Hierarchical Permissions"
                              (Sample.failing "boom") (Sample.runner_on Sample.denied)).2))
    = Some o /\ status o = "FAIL" /\ message o <> "".
Proof.
  apply (run_test_status Sample.digits "P1T2" "Hierarchical Permissions"
           (Sample.failing "boom") (Sample.runner_on Sample.denied)
           (Raised (mkExc Exception_ "boom")) _ eq_refl).
  intros e [= <-]. split; [reflexivity | discriminate].
Defined.

(** C8, the claim as written fails: a check that raises with no
    description, as a bare [assert] does, is recorded as a FAIL whose
    message is empty. *)
Lemma run_test_empty_message :
  exists o,
    last (results (session (run_test Sample.digits "P1T2" "Hierarchical Permissions"
                              Sample.bare_assert (Sample.runner_on Sample.denied)).2))
    = Some o /\ status o = "FAIL" /\ message o = "".
Proof. eexists. repeat split; reflexivity. Qed.

(** ** The request client *)

(** When the target gives the same answer to every attempt, that answer
    is what the adapter hands back, however many attempts it makes. *)
Lemma send_constant (p : Retry) (ep : nat -> Request -> Reply) (req : Request)
    (resp : Response) (retries n : nat) :
  (forall n req, ep n req = Answer resp) ->
  exists made, send p ep req retries n = (Answer resp, made).
Proof.
  intros Hep. revert n. induction retries as [|k IH]; intros n; cbn.
  - rewrite Hep. eauto.
  - rewrite Hep. destruct (retryable p req (Answer resp)); [|eauto].
    destruct (IH (S n)) as [made ->]. eauto.
Qed.




(** C5: with the policy [__init__] mounts, on a target that answers 503
    to two attempts and 200 to the third the request returns the value
    of the 200 answer after three attempts on the wire; on a target that
    always answers 404 the request fails after one attempt. *)
Theorem retry_policy_scenarios (json_dumps : Json -> string) (query : string)
    (variables : option Json) (token : option string)
    (r : Runner) (first second third : Response) (v : Json)
    (r' : Runner) (absent : Response) :
  max_retries r = retry_strategy ->
  (forall req, endpoint r (length (wire r)) req = Answer first) ->
  (forall req, endpoint r (S (length (wire r))) req = Answer second) ->
  (forall req, endpoint r (S (S (length (wire r)))) req = Answer third) ->
  status_code first = 503 -> status_code second = 503 ->
  status_code third = 200 -> json third = inr v ->
  max_retries r' = retry_strategy ->
  (forall n req, endpoint r' n req = Answer absent) ->
  status_code absent = 404 ->
  ((make_graphql_request json_dumps query variables token r).1 = Returned v
   /\ length (wire (make_graphql_request json_dumps query variables token r).2)
      = (length (wire r) + 3)%nat)
  /\ ((make_graphql_request json_dumps query variables token r').1
      = Raised (mkExc Exception_ ("GraphQL request failed: 404 " +:+ reason absent))
      /\ length (wire (make_graphql_request json_dumps query variables token r').2)
         = (length (wire r') + 1)%nat).
Proof.
  intros Hp H1 H2 H3 S1 S2 S3 Hv Hp' Hall S404.
  unfold make_graphql_request, http_session_request. step_monad. cbn.
  rewrite Hp, Hp'. cbn.
  rewrite H1, H2, H3, Hall. unfold retryable. cbn.
  rewrite S1, S2, S3, S404.
  change (bool_decide (503 ∈ [429; 500; 502; 503; 504])) with true.
  change (bool_decide (200 ∈ [429; 500; 502; 503; 504])) with false.
  change (bool_decide (404 ∈ [429; 500; 502; 503; 504])) with false.
  change (bool_decide ("POST" ∈ ["HEAD"; "GET"; "POST"; "OPTIONS"])) with true.
  cbn. rewrite S3, S404, Hv. cbn.
  repeat split; rewrite ?length_app, ?length_replicate; reflexivity.
Qed.

(** The two targets of the scenario, from a runner that has sent
    nothing yet. *)
Lemma retry_policy_scenarios_witness :
  ((make_graphql_request Sample.dumps login_mutation None None Sample.runner_on_flaky).1
   = Returned Sample.login_ok
   /\ length (wire (make_graphql_request Sample.dumps login_mutation None None
                      Sample.runner_on_flaky).2) = 3%nat)
  /\ ((make_graphql_request Sample.dumps login_mutation None None
         (Sample.runner_on Sample.missing)).1
      = Raised (mkExc Exception_ "GraphQL request failed: 404 Not Found")
      /\ length (wire (make_graphql_request Sample.dumps login_mutation None None
                         (Sample.runner_on Sample.missing)).2) = 1%nat).
Proof.
  apply (retry_policy_scenarios Sample.dumps login_mutation None None
           Sample.runner_on_flaky Sample.busy Sample.busy (Sample.ok Sample.login_ok)
           Sample.login_ok (Sample.runner_on Sample.missing) Sample.missing);
    reflexivity.
Defined.

(** ** The token cache *)

(** C10: for a key that has no cached token and no account, the lookup
    in the accounts raises [KeyError]; nothing is sent and nothing
    changes.  For a key of ASCII characters the description of the
    error is [repr] of the key. *)
Theorem authenticate_user_unknown_key (json_dumps : Json -> string) (key : string)
    (r : Runner) :
  tokens (session r) !! key = None ->
  accounts (session r) !! key = None ->
  (exists description,
     authenticate_user json_dumps key r = (Raised (mkExc KeyError description), r))
  /\ (ascii_text key = true ->
      authenticate_user json_dumps key r = (Raised (mkExc KeyError (py_repr key)), r)).
Proof.
  intros Ht Ha. unfold authenticate_user. step_monad. rewrite Ht, Ha. eauto.
Qed.

(** The fresh runner has no account named "auditor", and none named
    "it's", whose [repr] stands between double quotes. *)
Lemma authenticate_user_unknown_key_witness :
  authenticate_user Sample.dumps "auditor" (Sample.runner_on (Sample.ok Sample.login_ok))
  = (Raised (mkExc KeyError "'auditor'"), Sample.runner_on (Sample.ok Sample.login_ok))
  /\ authenticate_user Sample.dumps "it's" (Sample.runner_on (Sample.ok Sample.login_ok))
     = (Raised (mkExc KeyError
                  (String double_quote ("it's" +:+ String double_quote EmptyString))),
        Sample.runner_on (Sample.ok Sample.login_ok)).
Proof.
  split.
  - apply (proj2 (authenticate_user_unknown_key Sample.dumps "auditor"
                    (Sample.runner_on (Sample.ok Sample.login_ok)) eq_refl eq_refl)).
    reflexivity.
  - apply (proj2 (authenticate_user_unknown_key Sample.dumps "it's"
                    (Sample.runner_on (Sample.ok Sample.login_ok)) eq_refl eq_refl)).
    reflexivity.
Defined.

(** A cached key is answered from the cache: the token comes back and
    the state is the one before. *)
Lemma authenticate_user_cached (json_dumps : Json -> string) (key : string) (r : Runner)
    (token : Json) :
  tokens (session r) !! key = Some token ->
  authenticate_user json_dumps key r = (Returned token, r).
Proof.
  intros Ht. unfold authenticate_user. step_monad. now rewrite Ht.
Qed.

Lemma make_graphql_request_except_session (response : option Response) (e : Exc) (r : Runner) :
  session (make_graphql_request_except response e r).2 = session r.
Proof.
  unfold make_graphql_request_except. step_monad.
  destruct (is_RequestException _); [reflexivity|].
  destruct (is_JSONDecodeError _); [|reflexivity].
  destruct response; reflexivity.
Qed.

(** A request leaves the session as it is. *)
Lemma make_graphql_request_session (json_dumps : Json -> string) (query : string)
    (variables : option Json) (token : option string) (r : Runner) :
  session (make_graphql_request json_dumps query variables token r).2 = session r.
Proof.
  unfold make_graphql_request, http_session_request. step_monad. cbn.
  destruct (send _ _ _ _ _) as [[resp|what] made]; cbn.
  - destruct (negb _); cbn; [reflexivity|].
    destruct (json resp) as [e|v]; cbn; [|reflexivity].
    now rewrite make_graphql_request_except_session.
  - reflexivity.
Qed.

Ltac case_outcomes :=
  repeat (step_monad; cbn in *;
          match goal with
          | |- context [match ?c with Returned _ => _ | Raised _ => _ end] => destruct c eqn:?
          | |- context [if ?b then _ else _] => destruct b eqn:?
          end).

(** A call caches the token it returns and keeps the tokens that were
    cached before. *)
Lemma authenticate_user_tokens (json_dumps : Json -> string) (key : string) (r : Runner) :
  (forall token, (authenticate_user json_dumps key r).1 = Returned token ->
     tokens (session (authenticate_user json_dumps key r).2) !! key = Some token)
  /\ (forall key' token', tokens (session r) !! key' = Some token' ->
        tokens (session (authenticate_user json_dumps key r).2) !! key' = Some token').
Proof.
  unfold authenticate_user. step_monad.
  destruct (tokens (session r) !! key) as [cached|] eqn:Ht; cbn.
  { split; [intros ? [= <-]; assumption | auto]. }
  destruct (accounts (session r) !! key) as [account|] eqn:Ha; cbn;
    [|split; [discriminate|auto]].
  pose proof (make_graphql_request_session json_dumps login_mutation
    (Some (JObj [("input", JObj [("email", JStr (email account));
                                 ("password", JStr (password account))])])) None r) as Hs.
  destruct (make_graphql_request _ _ _ _ _) as [[response|e] r1]; cbn in *;
    [|rewrite Hs; split; [discriminate|auto]].
  case_outcomes;
    (split; [intros token Hret | intros key' token' Hc]);
    cbn in *; rewrite ?Hs; try discriminate; auto;
    first [ injection Hret as <-; apply lookup_insert_eq
          | rewrite lookup_insert_ne; [assumption | congruence] ].
Qed.

(** Once a key is cached, every later call for it in a sequence of calls
    returns the cached token and sends nothing. *)
Lemma authenticate_each_cached (json_dumps : Json -> string) (keys : list string) :
  forall (r : Runner) (key : string) (token : Json),
  tokens (session r) !! key = Some token ->
  forall (j : nat) (done : Completion Json) (sent : nat),
  (authenticate_each json_dumps keys r).1 !! j = Some (key, done, sent) ->
  done = Returned token /\ sent = 0%nat.
Proof.
  induction keys as [|k rest IH]; intros r key token Ht j done sent Hj; cbn in Hj.
  - rewrite lookup_nil in Hj. discriminate.
  - destruct (authenticate_user json_dumps k r) as [c r1] eqn:Hk.
    destruct (authenticate_each json_dumps rest r1) as [trace r2] eqn:Hrest.
    cbn in Hj. destruct j as [|j]; cbn in Hj.
    + injection Hj as -> <- <-.
      rewrite (authenticate_user_cached _ _ _ _ Ht) in Hk. injection Hk as <- <-.
      split; [reflexivity | lia].
    + apply (IH r1 key token) with (j := j); [|now rewrite Hrest].
      pose proof (proj2 (authenticate_user_tokens json_dumps k r) key token Ht) as Hkeep.
      now rewrite Hk in Hkeep.
Qed.

(** C2: in a sequence of calls of [authenticate_user], once a call for
    a key has returned a token, every later call for that key returns
    the same token and hands no request to the HTTP session. *)
Theorem authenticate_user_once_cached (json_dumps : Json -> string) (keys : list string)
    (r : Runner) (i j : nat) (key : string) (token : Json) (sent_i : nat)
    (done : Completion Json) (sent_j : nat) :
  (i < j)%nat ->
  (authenticate_each json_dumps keys r).1 !! i = Some (key, Returned token, sent_i) ->
  (authenticate_each json_dumps keys r).1 !! j = Some (key, done, sent_j) ->
  done = Returned token /\ sent_j = 0%nat.
Proof.
  revert r i j. induction keys as [|k rest IH]; intros r i j Hij Hi Hj; cbn in Hi, Hj.
  - rewrite lookup_nil in Hi. discriminate.
  - destruct (authenticate_user json_dumps k r) as [c r1] eqn:Hk.
    destruct (authenticate_each json_dumps rest r1) as [trace r2] eqn:Hrest.
    cbn in Hi, Hj. destruct j as [|j]; [lia|]. cbn in Hj.
    destruct i as [|i]; cbn in Hi.
    + injection Hi as -> -> <-.
      pose proof (proj1 (authenticate_user_tokens json_dumps key r) token) as Hput.
      rewrite Hk in Hput. cbn in Hput.
      apply (authenticate_each_cached json_dumps rest r1 key token (Hput eq_refl) j).
      now rewrite Hrest.
    + apply (IH r1 i j); [lia | now rewrite Hrest | now rewrite Hrest].
Qed.

(** Three calls against a target that accepts the login: the second
    call for "admin" sends nothing. *)
Lemma authenticate_user_once_cached_witness :
  let trace :=
    (authenticate_each Sample.dumps ["admin"; "london_manager"; "admin"]
       (Sample.runner_on (Sample.ok Sample.login_ok))).1 in
  trace !! 0%nat = Some ("admin", Returned (JStr "abc"), 1%nat)
  /\ trace !! 2%nat = Some ("admin", Returned (JStr "abc"), 0%nat)
  /\ (Returned (JStr "abc") = Returned (JStr "abc") /\ 0%nat = 0%nat).
Proof.
  cbv zeta. split; [reflexivity | split; [reflexivity |]].
  apply (authenticate_user_once_cached Sample.dumps ["admin"; "london_manager"; "admin"]
           (Sample.runner_on (Sample.ok Sample.login_ok)) 0 2 "admin" (JStr "abc") 1
           (Returned (JStr "abc")) 0); [lia | reflexivity | reflexivity].
Defined.

(** C2, the claim as written fails: against a target that refuses the
    login, two calls for the same key send two requests, and the second
    call returns no token. *)
Lemma authenticate_user_asks_again_after_failure :
  (authenticate_each Sample.dumps ["admin"; "admin"] (Sample.runner_on Sample.denied)).1
  = [("admin", Raised (mkExc Exception_ "GraphQL request failed: 401 Unauthorized"), 1%nat);
     ("admin", Raised (mkExc Exception_ "GraphQL request failed: 401 Unauthorized"), 1%nat)]
  /\ length (posted (authenticate_each Sample.dumps ["admin"; "admin"]
                       (Sample.runner_on Sample.denied)).2) = 2%nat.
Proof. split; reflexivity. Qed.

(** ** Counting outcomes *)

Lemma count_status_app (st : string) (l1 l2 : list TestResult) :
  count_status st (l1 ++ l2) = (count_status st l1 + count_status st l2)%nat.
Proof. unfold count_status. now rewrite filter_app, length_app. Qed.

Lemma count_status_cons (st : string) (o : TestResult) (l : list TestResult) :
  count_status st (o :: l)
  = ((if String.eqb (status o) st then 1 else 0) + count_status st l)%nat.
Proof.
  unfold count_status. rewrite filter_cons.
  destruct (String.eqb_spec (status o) st) as [->|Hne].
  - now rewrite decide_True.
  - now rewrite decide_False.
Qed.

Lemma counts_partition (l : list TestResult) :
  Forall pass_or_fail l ->
  (count_status "PASS" l + count_status "FAIL" l + count_status "SKIP" l)%nat = length l
  /\ count_status "SKIP" l = 0%nat.
Proof.
  induction 1 as [|o l [Ho|Ho] _ [IHsum IHskip]]; [split; reflexivity | |];
    rewrite !count_status_cons, Ho; cbn; split; lia.
Qed.

(** ** Schedules *)

(** One call of [run_test] on a check that leaves the results alone:
    what it adds to the results. *)
Lemma run_test_results (format_0f : float -> string) (id title : string) (check : M unit)
    (r : Runner) :
  keeps_results check ->
  exists outs,
    results (session (run_test format_0f id title check r).2) = results (session r) ++ outs
    /\ Forall pass_or_fail outs
    /\ match (run_test format_0f id title check r).1 with
       | Returned _ => map test_id outs = [id]
       | Raised _ => outs = []
       end.
Proof.
  intros Hkeep. unfold run_test, append_result. step_monad. cbn.
  match goal with
  | |- context [check ?r0] =>
      pose proof (Hkeep r0) as Hres; destruct (check r0) as [[[]|e] r1]
  end; cbn in *.
  - eexists [_]. rewrite Hres.
    split; [reflexivity | split; [|reflexivity]].
    constructor; [now left | constructor].
  - destruct (is_Exception (exc_class e)); cbn.
    + eexists [_]. rewrite Hres.
      split; [reflexivity | split; [|reflexivity]].
      constructor; [now right | constructor].
    + exists []. rewrite Hres, app_nil_r.
      split; [reflexivity | split; [constructor | reflexivity]].
Qed.

Lemma run_step_results (format_0f : float -> string) (s : Step) (r : Runner) :
  step_keeps_results s ->
  exists outs,
    results (session (run_step format_0f s r).2) = results (session r) ++ outs
    /\ Forall pass_or_fail outs
    /\ match (run_step format_0f s r).1 with
       | Returned _ => map test_id outs = plan_ids [s]
       | Raised _ => outs = []
       end.
Proof.
  destruct s as [msg|id title check]; cbn [run_step step_keeps_results plan_ids].
  - intros _. exists []. cbn. rewrite app_nil_r.
    split; [reflexivity | split; [constructor | reflexivity]].
  - apply run_test_results.
Qed.

Lemma plan_ids_cons (s : Step) (plan : list Step) :
  plan_ids (s :: plan) = plan_ids [s] ++ plan_ids plan.
Proof. destruct s; reflexivity. Qed.

(** A schedule of checks that leave the results alone adds outcomes at
    the end of the results, passes and failures only, and when it runs
    to its end it has added one outcome per test, in the order of the
    schedule. *)
Lemma run_plan_results (format_0f : float -> string) (plan : list Step) :
  forall r : Runner,
  Forall step_keeps_results plan ->
  exists outs,
    results (session (run_plan format_0f plan r).2) = results (session r) ++ outs
    /\ Forall pass_or_fail outs
    /\ match (run_plan format_0f plan r).1 with
       | Returned _ => map test_id outs = plan_ids plan
       | Raised _ => True
       end.
Proof.
  induction plan as [|s rest IH]; intros r Hkeep.
  - exists []. cbn. rewrite app_nil_r.
    split; [reflexivity | split; [constructor | reflexivity]].
  - apply Forall_cons in Hkeep as [Hs Hrest].
    destruct (run_step_results format_0f s r Hs) as (outs1 & Hres1 & Hpf1 & Hids1).
    destruct rest as [|s' rest'].
    + exists outs1. cbn [run_plan].
      split; [assumption | split; [assumption|]].
      destruct (run_step format_0f s r).1; [assumption | exact I].
    + change (run_plan format_0f (s :: s' :: rest'))
        with (run_step format_0f s ≫= fun _ => run_plan format_0f (s' :: rest')).
      unfold mbind, M_bind, bind.
      destruct (run_step format_0f s r) as [[[]|e] r1]; cbn [fst snd] in *.
      * destruct (IH r1 Hrest) as (outs2 & Hres2 & Hpf2 & Hids2).
        exists (outs1 ++ outs2). rewrite Hres2, Hres1, app_assoc.
        split; [reflexivity | split; [now apply Forall_app|]].
        destruct (run_plan format_0f (s' :: rest') r1).1; [|exact I].
        rewrite map_app, Hids1, Hids2. symmetry. apply plan_ids_cons.
      * exists outs1. split; [assumption | split; [assumption | exact I]].
Qed.

(** ** The report *)

(** A loop whose body only writes to the console only writes to the
    console. *)
Lemma for_each_console_only {A : Type} (l : list A) (body : A -> M unit) :
  (forall x r, exists f, body x r = (Returned tt, set_console f r)) ->
  forall r : Runner, exists f, for_each l body r = (Returned tt, set_console f r).
Proof.
  intros Hbody. induction l as [|x l IH]; intros r; cbn.
  - exists (fun c => c). now destruct r.
  - step_monad. destruct (Hbody x r) as [f ->].
    destruct (IH (set_console f r)) as [g ->].
    now exists (fun c => g (f c)).
Qed.

(** What [generate_report] does: it leaves the session alone; when the
    file cannot be opened it raises the error of the disk, and otherwise
    it writes the report of the results and returns whether no outcome
    is a failure. *)
Lemma generate_report_run (format_0f format_1f : float -> string) (r : Runner) :
  let res := results (session r) in
  let out := generate_report format_0f format_1f r in
  session out.2 = session r
  /\ match disk_error r with
     | Some e => out.1 = Raised e
     | None =>
         out.1 = Returned (Nat.eqb (count_status "FAIL" res) 0)
         /\ files out.2 !! "deployment-test-results.json"
            = Some (mkReport
                      (mkSummary (length res) (count_status "PASS" res)
                         (count_status "FAIL" res) (count_status "SKIP" res)
                         (rate (count_status "PASS" res) (length res))
                         ((clock r - start_time (session r)) * 1000)%float
                         (base_url (session r)) (clock r))
                      (map report_row res))
     end.
Proof.
  intros res out. subst res out. unfold generate_report, write_report. step_monad. cbn.
  destruct (count_status "FAIL" (results (session r))) as [|nfailed]; cbn.
  - destruct (disk_error r); cbn; [now split|].
    split; [reflexivity | split; [reflexivity | apply lookup_insert_eq]].
  - match goal with
    | |- context [for_each ?l ?body ?r0] =>
        destruct (for_each_console_only l body) with (r := r0) as [f ->]
    end.
    { intros x r0. destruct (String.eqb (status x) "FAIL"); step_monad; eauto.
      exists (fun c => c). now destruct r0. }
    cbn. destruct (disk_error r); cbn; [now split|].
    split; [reflexivity | split; [reflexivity | apply lookup_insert_eq]].
Qed.

(** A suite that returns has run every test of its schedule and written
    the report of the results. *)
Lemma run_suite_report (format_0f format_1f : float -> string) (plan : list Step)
    (r : Runner) (success : bool) (r' : Runner) :
  Forall step_keeps_results plan ->
  run_suite format_0f format_1f plan r = (Returned success, r') ->
  exists outs report,
    results (session r') = results (session r) ++ outs
    /\ map test_id outs = plan_ids plan
    /\ Forall pass_or_fail outs
    /\ success = Nat.eqb (count_status "FAIL" (results (session r'))) 0
    /\ files r' !! "deployment-test-results.json" = Some report
    /\ summarises report (results (session r')).
Proof.
  intros Hkeep Hrun. unfold run_suite in Hrun.
  apply bind_returned in Hrun as ([] & r1 & Hplan & Hreport).
  destruct (run_plan_results format_0f plan r Hkeep) as (outs & Hres & Hpf & Hids).
  rewrite Hplan in Hres, Hids. cbn in Hres, Hids.
  destruct (generate_report_run format_0f format_1f r1) as [Hsession Hout].
  rewrite Hreport in Hsession, Hout. cbn in Hsession, Hout.
  destruct (disk_error r1); [discriminate|]. destruct Hout as [[= ->] Hfile].
  exists outs. eexists. rewrite Hsession.
  split; [assumption | split; [assumption | split; [assumption |]]].
  split; [reflexivity | split; [exact Hfile |]].
  repeat split.
Qed.

(** The session after the suite, however it ends: outcomes were added at
    the end of the results, passes and failures only. *)
Lemma run_suite_outcomes (format_0f format_1f : float -> string) (plan : list Step)
    (r : Runner) :
  Forall step_keeps_results plan ->
  exists outs,
    results (session (run_suite format_0f format_1f plan r).2) = results (session r) ++ outs
    /\ Forall pass_or_fail outs.
Proof.
  intros Hkeep.
  destruct (run_plan_results format_0f plan r Hkeep) as (outs & Hres & Hpf & _).
  exists outs. split; [|assumption].
  unfold run_suite, mbind, M_bind, bind.
  destruct (run_plan format_0f plan r) as [[[]|e] r1]; cbn in *; [|assumption].
  destruct (generate_report_run format_0f format_1f r1) as [-> _]. assumption.
Qed.

(** ** The run *)

Lemma run_plan_app (format_0f : float -> string) (p q : list Step) (r : Runner) :
  run_plan format_0f (p ++ q) r = (run_plan format_0f p ≫= fun _ => run_plan format_0f q) r.
Proof.
  revert r. induction p as [|s p IH]; intros r; [reflexivity|].
  destruct p as [|s' p].
  - destruct q as [|s' q]; [|reflexivity].
    cbn. unfold mbind, M_bind, bind. now destruct (run_step format_0f s r) as [[[]|e] r1].
  - change (run_plan format_0f ((s :: s' :: p) ++ q) r)
      with ((run_step format_0f s ≫= fun _ => run_plan format_0f ((s' :: p) ++ q)) r).
    change (run_plan format_0f (s :: s' :: p))
      with (run_step format_0f s ≫= fun _ => run_plan format_0f (s' :: p)).
    unfold mbind, M_bind, bind in *.
    destruct (run_step format_0f s r) as [[[]|e] r1]; [apply IH | reflexivity].
Qed.

Lemma check_deployment_access_returns (r : Runner) :
  exists accessible r1,
    check_deployment_access r = (Returned accessible, r1) /\ session r1 = session r.
Proof.
  unfold check_deployment_access, http_session_request. step_monad. cbn.
  destruct (send _ _ _ _ _) as [[resp|what] made]; cbn; [|eauto].
  destruct (bool_decide _); cbn; [eauto|].
  destruct (negb _); cbn; eauto.
Qed.

(** [run] is its three phases as one schedule, then the report, from a
    state that differs from the first one in the console and the
    requests sent only. *)
Lemma run_as_suite (format_0f format_1f : float -> string) (self : TestBodies) (r : Runner) :
  exists r0,
    session r0 = session r
    /\ run format_0f format_1f self r
       = run_suite format_0f format_1f (phase1 self ++ phase2 self ++ phase3 self) r0.
Proof.
  unfold run.
  change (run_phase1_tests format_0f self) with (run_plan format_0f (phase1 self)).
  change (run_phase2_tests format_0f self) with (run_plan format_0f (phase2 self)).
  change (run_phase3_tests format_0f self) with (run_plan format_0f (phase3 self)).
  step_monad.
  match goal with
  | |- context [check_deployment_access ?r1] =>
      destruct (check_deployment_access_returns r1) as (accessible & r2 & -> & Hs)
  end.
  cbn in Hs.
  exists (if accessible then r2
          else set_console
                 (fun c => c ++ [mkLogLine "WARN" "Deployment is protected - tests may be limited"])
                 r2).
  split; [now destruct accessible|].
  unfold run_suite, mbind, M_bind, bind. rewrite run_plan_app.
  unfold mbind, M_bind, bind.
  destruct accessible.
  all: destruct (run_plan format_0f (phase1 self) _) as [[[]|?] ?]; [|reflexivity].
  all: rewrite run_plan_app; unfold mbind, M_bind, bind.
  all: destruct (run_plan format_0f (phase2 self) _) as [[[]|?] ?]; [|reflexivity].
  all: destruct (run_plan format_0f (phase3 self) _) as [[[]|?] ?]; reflexivity.
Qed.

Lemma phases_keep_results (self : TestBodies) :
  Forall keeps_results (bodies self) ->
  Forall step_keeps_results (phase1 self ++ phase2 self ++ phase3 self).
Proof.
  unfold bodies. intros H.
  repeat match goal with
         | H : Forall _ (_ :: _) |- _ => apply Forall_cons in H as [? H]
         end.
  repeat constructor; assumption.
Qed.

Lemma count_status_none (st : string) (l : list TestResult) :
  count_status st l = 0%nat <-> Forall (fun o => status o <> st) l.
Proof.
  induction l as [|o l IH].
  - split; [constructor | reflexivity].
  - rewrite count_status_cons, Forall_cons.
    destruct (String.eqb_spec (status o) st) as [Heq|Hne]; split.
    + discriminate.
    + intros [Hne _]. contradiction.
    + intros H. split; [assumption | now apply IH].
    + intros [_ H]. now apply IH.
Qed.

(** C3: when [run] returns, the report it wrote lists the results of the
    session in their order: the results there were before the run, then
    one row for each test of the three phases, in the order of the calls
    of [run_test], whatever the checks did. *)
Theorem report_lists_every_test_in_order (format_0f format_1f : float -> string)
    (self : TestBodies) (r : Runner) (success : bool) (r' : Runner) :
  Forall keeps_results (bodies self) ->
  run format_0f format_1f self r = (Returned success, r') ->
  exists report,
    files r' !! report_path = Some report
    /\ rows report = map report_row (results (session r'))
    /\ map row_test_id (rows report) = map test_id (results (session r)) ++ scheduled_ids
    /\ length (rows report) = (length (results (session r)) + 22)%nat.
Proof.
  intros Hkeep Hrun.
  destruct (run_as_suite format_0f format_1f self r) as (r0 & Hs & Heq).
  rewrite Heq in Hrun.
  destruct (run_suite_report _ _ _ _ _ _ (phases_keep_results self Hkeep) Hrun)
    as (outs & report & Hres & Hids & _ & _ & Hfile & Hrows & _).
  exists report. split; [exact Hfile | split; [exact Hrows|]].
  rewrite Hrows, Hres, Hs.
  assert (Hmap : map row_test_id (map report_row (results (session r) ++ outs))
                 = map test_id (results (session r)) ++ scheduled_ids).
  { change scheduled_ids with (plan_ids (phase1 self ++ phase2 self ++ phase3 self)).
    rewrite <- Hids, map_map, map_app. reflexivity. }
  split; [exact Hmap|].
  apply (f_equal length) in Hmap. rewrite !length_map in Hmap.
  rewrite length_map, Hmap, length_app, length_map. reflexivity.
Qed.

Lemma mixed_bodies_keep_results : Forall keeps_results (bodies Sample.mixed_bodies).
Proof. repeat (constructor; [intros r; reflexivity|]). constructor. Defined.

(** A whole run in which two checks fail. *)
Lemma report_lists_every_test_in_order_witness :
  let out :=
    run Sample.digits Sample.digits Sample.mixed_bodies
      (Sample.runner_on (Sample.ok Sample.login_ok)) in
  Forall keeps_results (bodies Sample.mixed_bodies)
  /\ exists report,
       files out.2 !! report_path = Some report
       /\ rows report = map report_row (results (session out.2))
       /\ map row_test_id (rows report) = scheduled_ids
       /\ length (rows report) = 22%nat.
Proof.
  cbv zeta. split; [exact mixed_bodies_keep_results|].
  apply (report_lists_every_test_in_order Sample.digits Sample.digits Sample.mixed_bodies
           (Sample.runner_on (Sample.ok Sample.login_ok)) false _
           mixed_bodies_keep_results).
  vm_compute. reflexivity.
Defined.

(** C6: the boolean [run] returns is true exactly when no outcome of the
    session is a FAIL; [main] hands 0 to [sys.exit] when it is true and
    1 when it is not; outcomes with any other status, SKIP among them,
    do not make it false. *)
Theorem exit_status_reflects_failures (format_0f format_1f : float -> string)
    (self : TestBodies) (w : World) (target : string) (production : bool)
    (success : bool) (r' : Runner) :
  run format_0f format_1f self (EkkoTestRunner_init w target production)
  = (Returned success, r') ->
  (success = true <-> count_status "FAIL" (results (session r')) = 0%nat)
  /\ main format_0f format_1f self w target production
     = (Returned (if success then 0 else 1), r')
  /\ ((forall o, o ∈ results (session r') -> status o = "PASS" \/ status o = "SKIP") ->
      success = true).
Proof.
  intros Hrun.
  assert (Hsuccess : success = Nat.eqb (count_status "FAIL" (results (session r'))) 0).
  { destruct (run_as_suite format_0f format_1f self (EkkoTestRunner_init w target production))
      as (r0 & _ & Heq).
    rewrite Heq in Hrun. unfold run_suite in Hrun.
    apply bind_returned in Hrun as ([] & r1 & _ & Hreport).
    destruct (generate_report_run format_0f format_1f r1) as [Hsession Hout].
    rewrite Hreport in Hsession, Hout. cbn in Hsession, Hout.
    destruct (disk_error r1); [discriminate|]. destruct Hout as [[= ->] _].
    now rewrite Hsession. }
  split; [|split].
  - rewrite Hsuccess. apply Nat.eqb_eq.
  - unfold main. now rewrite (bind_run _ _ _ _ _ Hrun).
  - intros Hall. rewrite Hsuccess. apply Nat.eqb_eq, count_status_none.
    apply Forall_forall. intros o Ho.
    destruct (Hall o Ho) as [-> | ->]; discriminate.
Qed.

(** A run with two failures returns false and exits with status 1. *)
Lemma exit_status_reflects_failures_witness :
  let out :=
    run Sample.digits Sample.digits Sample.mixed_bodies
      (EkkoTestRunner_init (Sample.world (fun _ _ => Answer Sample.denied))
         "http://localhost:3000" false) in
  out.1 = Returned false
  /\ count_status "FAIL" (results (session out.2)) = 2%nat
  /\ main Sample.digits Sample.digits Sample.mixed_bodies
       (Sample.world (fun _ _ => Answer Sample.denied)) "http://localhost:3000" false
     = (Returned 1, out.2).
Proof.
  cbv zeta.
  split; [reflexivity | split; [reflexivity|]].
  apply (exit_status_reflects_failures Sample.digits Sample.digits Sample.mixed_bodies
           (Sample.world (fun _ _ => Answer Sample.denied)) "http://localhost:3000" false
           false).
  vm_compute. reflexivity.
Defined.

(** C7: for a schedule run on a session whose outcomes are passes and
    failures, the summary of the report counts every outcome once
    (passed + failed + skipped = total, the total being the outcomes
    there were plus one per scheduled test), its success rate is
    [passed / total * 100] in double precision and 0 when there is no
    outcome, and ten outcomes of which two are failures give 8, 2, 0 and
    80.0.  [run] is such a schedule ([run_as_suite]). *)
Theorem summary_counts_add_up (format_0f format_1f : float -> string) (plan : list Step)
    (r : Runner) (success : bool) (r' : Runner) :
  Forall pass_or_fail (results (session r)) ->
  Forall step_keeps_results plan ->
  run_suite format_0f format_1f plan r = (Returned success, r') ->
  exists report,
    files r' !! report_path = Some report
    /\ let s := summary report in
       total_tests s = (length (results (session r)) + length (plan_ids plan))%nat
       /\ (passed s + failed s + skipped s)%nat = total_tests s
       /\ success_rate s = rate (passed s) (total_tests s)
       /\ (total_tests s = 0%nat -> success_rate s = 0%float)
       /\ (total_tests s = 10%nat -> failed s = 2%nat ->
           passed s = 8%nat /\ skipped s = 0%nat /\ success_rate s = 80%float).
Proof.
  intros Hbefore Hkeep Hrun.
  destruct (run_suite_report _ _ _ _ _ _ Hkeep Hrun)
    as (outs & report & Hres & Hids & Hpf & _ & Hfile & _ & Htotal & Hpass & Hfail & Hskip & Hrate).
  exists report. split; [exact Hfile|]. cbv zeta.
  assert (Hall : Forall pass_or_fail (results (session r'))).
  { rewrite Hres. now apply Forall_app. }
  destruct (counts_partition _ Hall) as [Hsum Hnoskip].
  rewrite <- Hids, length_map.
  split; [now rewrite Htotal, Hres, length_app|].
  split; [now rewrite Htotal, Hpass, Hfail, Hskip|].
  split; [exact Hrate|].
  split.
  - intros Hzero. rewrite Hrate, Hzero. reflexivity.
  - intros Hten Htwo.
    assert (Hp : passed (summary report) = 8%nat) by lia.
    split; [exact Hp | split; [lia|]].
    rewrite Hrate, Hp, Hten. reflexivity.
Qed.

Lemma ten_checks_keep_results : Forall step_keeps_results Sample.ten_checks.
Proof.
  constructor; [exact I|].
  repeat (constructor; [intros r; reflexivity|]). constructor.
Defined.

(** Ten scheduled checks, two of which fail, on a fresh session. *)
Lemma summary_counts_add_up_witness :
  let out :=
    run_suite Sample.digits Sample.digits Sample.ten_checks
      (Sample.runner_on (Sample.ok Sample.login_ok)) in
  exists report,
    files out.2 !! report_path = Some report
    /\ total_tests (summary report) = 10%nat
    /\ passed (summary report) = 8%nat
    /\ failed (summary report) = 2%nat
    /\ skipped (summary report) = 0%nat
    /\ success_rate (summary report) = 80%float.
Proof.
  cbv zeta.
  destruct (summary_counts_add_up Sample.digits Sample.digits Sample.ten_checks
              (Sample.runner_on (Sample.ok Sample.login_ok)) false
              (run_suite Sample.digits Sample.digits Sample.ten_checks
                 (Sample.runner_on (Sample.ok Sample.login_ok))).2
              (List.Forall_nil _) ten_checks_keep_results)
    as (report & Hfile & Htotal & _ & _ & _ & Hscenario).
  { vm_compute. reflexivity. }
  exists report.
  assert (Hfailed : failed (summary report) = 2%nat).
  { vm_compute in Hfile. injection Hfile as <-. reflexivity. }
  destruct (Hscenario Htotal Hfailed) as (Hpassed & Hskipped & Hrate).
  repeat split; assumption.
Defined.

(** C9: in a run whose checks leave the results alone, no outcome with
    status SKIP is added: a session without one has none after [run],
    however [run] ends, and the report that [run] writes counts zero
    skipped. *)
Theorem no_outcome_is_skipped (format_0f format_1f : float -> string) (self : TestBodies)
    (r : Runner) :
  Forall keeps_results (bodies self) ->
  count_status "SKIP" (results (session r)) = 0%nat ->
  count_status "SKIP" (results (session (run format_0f format_1f self r).2)) = 0%nat
  /\ forall success r',
       run format_0f format_1f self r = (Returned success, r') ->
       exists report,
         files r' !! report_path = Some report /\ skipped (summary report) = 0%nat.
Proof.
  intros Hkeep Hnone.
  destruct (run_as_suite format_0f format_1f self r) as (r0 & Hs & Heq).
  rewrite Heq.
  destruct (run_suite_outcomes format_0f format_1f _ r0 (phases_keep_results self Hkeep))
    as (outs & Hres & Hpf).
  assert (Hafter : count_status "SKIP"
                     (results (session (run_suite format_0f format_1f
                        (phase1 self ++ phase2 self ++ phase3 self) r0).2)) = 0%nat).
  { rewrite Hres, Hs, count_status_app, Hnone.
    now destruct (counts_partition outs Hpf) as [_ ->]. }
  split; [exact Hafter|].
  intros success r' Hrun. rewrite Hrun in Hafter. cbn in Hafter.
  destruct (run_suite_report _ _ _ _ _ _ (phases_keep_results self Hkeep) Hrun)
    as (_ & report & _ & _ & _ & _ & Hfile & _ & _ & _ & _ & Hskip & _).
  exists report. split; [exact Hfile|]. now rewrite Hskip.
Qed.

(** A whole run on a fresh session. *)
Lemma no_outcome_is_skipped_witness :
  let out :=
    run Sample.digits Sample.digits Sample.mixed_bodies
      (Sample.runner_on (Sample.ok Sample.login_ok)) in
  count_status "SKIP" (results (session out.2)) = 0%nat
  /\ forall success r',
       out = (Returned success, r') ->
       exists report,
         files r' !! report_path = Some report /\ skipped (summary report) = 0%nat.
Proof.
  cbv zeta.
  apply (no_outcome_is_skipped Sample.digits Sample.digits Sample.mixed_bodies
           (Sample.runner_on (Sample.ok Sample.login_ok)) mixed_bodies_keep_results).
  reflexivity.
Defined.

(** * Further properties of the script *)

(** ** Headers *)

Lemma assoc_dict_set (k' k v : string) (d : list (string * string)) :
  assoc k' (dict_set k v d) = if String.eqb k' k then Some v else assoc k' d.
Proof.
  induction d as [|[k0 v0] d IH]; cbn.
  - reflexivity.
  - destruct (String.eqb_spec k k0) as [<-|Hne]; cbn.
    + now destruct (String.eqb k' k).
    + rewrite IH. destruct (String.eqb_spec k' k) as [->|Hne'].
      * destruct (String.eqb_spec k k0); [contradiction | reflexivity].
      * reflexivity.
Qed.

Lemma dict_set_elem (k v : string) (d : list (string * string)) :
  (k, v) ∈ dict_set k v d.
Proof.
  induction d as [|[k0 v0] d IH]; cbn.
  - apply list_elem_of_here.
  - destruct (String.eqb k k0); [apply list_elem_of_here | now apply list_elem_of_further].
Qed.

Lemma assoc_dict_merge_one (k' k v : string) (d : list (string * string)) :
  assoc k' (dict_merge d [(k, v)]) = if String.eqb k' k then Some v else assoc k' d.
Proof. apply assoc_dict_set. Qed.

(** What a request changes in the runner: the attempts on the wire, the
    requests handed to the session and the console. *)
Lemma make_graphql_request_frame (json_dumps : Json -> string) (query : string)
    (variables : option Json) (token : option string) (r : Runner) :
  let req := graphql_request query variables token r in
  let r' := (make_graphql_request json_dumps query variables token r).2 in
  (is_production r' = is_production r /\ session r' = session r
   /\ http_headers r' = http_headers r /\ max_retries r' = max_retries r
   /\ endpoint r' = endpoint r /\ clock r' = clock r
   /\ disk_error r' = disk_error r /\ files r' = files r)
  /\ posted r' = posted r ++ [req]
  /\ (exists made, wire r' = wire r ++ replicate made req)
  /\ exists more,
       console r'
       = console r
         ++ mkLogLine "INFO" ("Making GraphQL request to: " +:+ req_url req)
         :: mkLogLine "INFO" ("Headers: " +:+ json_dumps (headers_json (req_headers req)))
         :: more.
Proof.
  unfold graphql_request, make_graphql_request, make_graphql_request_except,
    http_session_request.
  step_monad. cbn.
  destruct (send _ _ _ _ _) as [[resp|what] made]; cbn;
    [destruct (negb _); cbn;
       [|destruct (json resp) as [e|v]; cbn;
           [destruct (is_RequestException _); cbn;
              [|destruct (is_JSONDecodeError _); cbn]|]]|];
    (split; [repeat split|]);
    (split; [reflexivity|]);
    (split; [eexists; reflexivity|]);
    eexists; rewrite <- ?app_assoc; cbn [app];
      rewrite ?app_nil_r; reflexivity.
Qed.

(** X1: a call of [make_graphql_request], however it ends, hands exactly
    one request to the HTTP session, a POST to the GraphQL address with
    a timeout of 30, and changes nothing of the runner but the requests
    sent and the console: session, headers, clock and files stay. *)
Theorem make_graphql_request_sends_one_request (json_dumps : Json -> string)
    (query : string) (variables : option Json) (token : option string) (r : Runner) :
  let r' := (make_graphql_request json_dumps query variables token r).2 in
  posted r' = posted r ++ [graphql_request query variables token r]
  /\ session r' = session r /\ http_headers r' = http_headers r
  /\ clock r' = clock r /\ files r' = files r /\ disk_error r' = disk_error r.
Proof.
  destruct (make_graphql_request_frame json_dumps query variables token r)
    as ((_ & Hs & Hh & _ & _ & Hc & Hd & Hf) & Hp & _).
  cbv zeta. repeat split; assumption.
Qed.

(** X2: in the request a call hands to the HTTP session, the bearer
    token of the call wins over an [Authorization] header of the session
    and the other headers are those of the session; without a token, or
    with an empty one, the request carries the headers of the session
    only. *)
Theorem authorization_header_of_the_call_wins (json_dumps : Json -> string)
    (query : string) (variables : option Json) (token : option string) (r : Runner) :
  exists req,
    last (posted (make_graphql_request json_dumps query variables token r).2) = Some req
    /\ match token with
       | Some t =>
           if String.eqb t "" then req_headers req = http_headers r
           else assoc "Authorization" (req_headers req) = Some ("Bearer " +:+ t)
                /\ forall k, k <> "Authorization" ->
                   assoc k (req_headers req) = assoc k (http_headers r)
       | None => req_headers req = http_headers r
       end.
Proof.
  destruct (make_graphql_request_frame json_dumps query variables token r)
    as (_ & Hp & _).
  cbv zeta in Hp. exists (graphql_request query variables token r).
  split; [rewrite Hp; apply last_snoc|].
  unfold graphql_request. cbn [req_headers].
  destruct token as [t|]; [|reflexivity].
  destruct (String.eqb t ""); [reflexivity|].
  split.
  - now rewrite assoc_dict_merge_one.
  - intros k Hk. rewrite assoc_dict_merge_one.
    now destruct (String.eqb_spec k "Authorization").
Qed.

(** X3: the console gets the headers of every request in full, the
    bearer token among them: the line is the rendering of exactly the
    headers that are sent. *)
Theorem request_headers_are_logged_in_full (json_dumps : Json -> string) (query : string)
    (variables : option Json) (token : option string) (r : Runner) :
  let out := make_graphql_request json_dumps query variables token r in
  exists req,
    last (posted out.2) = Some req
    /\ mkLogLine "INFO" ("Headers: " +:+ json_dumps (headers_json (req_headers req)))
       ∈ console out.2
    /\ forall t, token = Some t -> t <> "" ->
       ("Authorization", JStr ("Bearer " +:+ t))
       ∈ match headers_json (req_headers req) with JObj members => members | _ => [] end.
Proof.
  destruct (make_graphql_request_frame json_dumps query variables token r)
    as (_ & Hp & _ & more & Hc).
  cbv zeta in *. exists (graphql_request query variables token r).
  split; [rewrite Hp; apply last_snoc|].
  split.
  - rewrite Hc. set_solver.
  - intros t -> Ht. cbn.
    destruct (String.eqb_spec t ""); [contradiction|].
    apply (list_elem_of_fmap_2 (fun kv : string * string => (kv.1, JStr kv.2)) _
             ("Authorization", "Bearer " +:+ t)).
    apply dict_set_elem.
Qed.

Lemma request_headers_are_logged_in_full_witness :
  let out :=
    make_graphql_request Sample.dumps "{ me { id } }" None (Some "abc")
      (Sample.runner_on (Sample.ok Sample.login_ok)) in
  exists req,
    last (posted out.2) = Some req
    /\ mkLogLine "INFO" ("Headers: " +:+ Sample.dumps (headers_json (req_headers req)))
       ∈ console out.2
    /\ ("Authorization", JStr "Bearer abc")
       ∈ match headers_json (req_headers req) with JObj members => members | _ => [] end.
Proof.
  cbv zeta.
  destruct (request_headers_are_logged_in_full Sample.dumps "{ me { id } }" None (Some "abc")
              (Sample.runner_on (Sample.ok Sample.login_ok))) as (req & Hlast & Hline & Hauth).
  exists req. split; [exact Hlast | split; [exact Hline|]].
  apply (Hauth "abc" eq_refl). discriminate.
Defined.

(** ** Failures of the transport and of the decoder *)

Lemma send_broken (p : Retry) (ep : nat -> Request -> Reply) (req : Request)
    (what : string) (retries n : nat) :
  (forall n req, ep n req = Broken what) ->
  exists made, send p ep req retries n = (Broken what, made).
Proof.
  intros Hep. revert n. induction retries as [|k IH]; intros n; cbn.
  - rewrite Hep. eauto.
  - rewrite Hep. destruct (retryable p req (Broken what)); [|eauto].
    destruct (IH (S n)) as [made ->]. eauto.
Qed.

(** X4: when no attempt reaches the target, the request fails with an
    [Exception] that reads "Network request failed:" and the description
    of the transport failure, which is also the last line of the
    console. *)
Theorem make_graphql_request_transport_failure (json_dumps : Json -> string)
    (query : string) (variables : option Json) (token : option string) (r : Runner)
    (what : string) :
  (forall n req, endpoint r n req = Broken what) ->
  let out := make_graphql_request json_dumps query variables token r in
  out.1 = Raised (mkExc Exception_ ("Network request failed: " +:+ what))
  /\ last (console out.2) = Some (mkLogLine "ERROR" ("Request error: " +:+ what)).
Proof.
  intros Hep out. subst out.
  unfold make_graphql_request, make_graphql_request_except, http_session_request.
  step_monad. cbn.
  match goal with
  | |- context [send ?p ?ep ?req ?k ?n] =>
      destruct (send_broken p ep req what k n Hep) as [made ->]
  end.
  cbn. split; [reflexivity | apply last_snoc].
Qed.

Lemma make_graphql_request_transport_failure_witness :
  (make_graphql_request Sample.dumps "{ me { id } }" None None
     (EkkoTestRunner_init (Sample.world (fun _ _ => Broken "Connection refused"))
        "http://localhost:3000" false)).1
  = Raised (mkExc Exception_ "Network request failed: Connection refused").
Proof.
  apply (make_graphql_request_transport_failure Sample.dumps "{ me { id } }" None None
           (EkkoTestRunner_init (Sample.world (fun _ _ => Broken "Connection refused"))
              "http://localhost:3000" false) "Connection refused").
  reflexivity.
Defined.

(** X5: when [Response.json()] rejects the body of a 200 answer with an
    exception that is a [RequestException] as well as a
    [JSONDecodeError], the first clause takes it: the failure reads
    "Network request failed:" and the body is not written to the
    console. *)
Theorem decode_failure_taken_as_network_failure (json_dumps : Json -> string)
    (query : string) (variables : option Json) (token : option string) (r : Runner)
    (resp : Response) (e : Exc) :
  (forall n req, endpoint r n req = Answer resp) ->
  status_code resp = 200 ->
  json resp = inl e ->
  exc_class e = RequestsJSONDecodeError ->
  let out := make_graphql_request json_dumps query variables token r in
  let req := graphql_request query variables token r in
  out.1 = Raised (mkExc Exception_ ("Network request failed: " +:+ exc_str e))
  /\ console out.2
     = console r
       ++ [mkLogLine "INFO" ("Making GraphQL request to: " +:+ req_url req);
           mkLogLine "INFO" ("Headers: " +:+ json_dumps (headers_json (req_headers req)));
           mkLogLine "INFO" "Response status: 200";
           mkLogLine "ERROR" ("Request error: " +:+ exc_str e)].
Proof.
  intros Hep Hstatus Hjson Hcls out req. subst out req.
  unfold graphql_request, make_graphql_request, make_graphql_request_except,
    http_session_request.
  step_monad. cbn.
  match goal with
  | |- context [send ?p ?ep ?req ?k ?n] =>
      destruct (send_constant p ep req resp k n Hep) as [made ->]
  end.
  cbn. rewrite Hstatus. cbn. rewrite Hjson, Hcls. cbn.
  split; [reflexivity|]. now rewrite <- !app_assoc.
Qed.

Lemma decode_failure_taken_as_network_failure_witness :
  (make_graphql_request Sample.dumps "{ me { id } }" None None
     (Sample.runner_on
        (mkResponse 200 "OK" "<html>"
           (inl (mkExc RequestsJSONDecodeError "Expecting value: line 1 column 1 (char 0)"))))).1
  = Raised (mkExc Exception_
              "Network request failed: Expecting value: line 1 column 1 (char 0)").
Proof.
  apply (decode_failure_taken_as_network_failure Sample.dumps "{ me { id } }" None None
           (Sample.runner_on
              (mkResponse 200 "OK" "<html>"
                 (inl (mkExc RequestsJSONDecodeError
                         "Expecting value: line 1 column 1 (char 0)"))))
           _ _ (fun _ _ => eq_refl) eq_refl eq_refl eq_refl).
Defined.

(** ** Construction *)

Lemma rstrip_slash_splits (s : string) :
  (exists n, s = rstrip_slash s +:+ slashes n)
  /\ forall t, rstrip_slash s <> t +:+ "/".
Proof.
  induction s as [|c s [[n Hn] Hend]]; cbn.
  - split; [now exists 0%nat|]. intros [|a t]; discriminate.
  - destruct (rstrip_slash s) as [|c' t'] eqn:Hr.
    + cbn in Hn. destruct (Ascii.eqb_spec c "/"%char) as [->|Hc].
      * split; [exists (S n); cbn; now rewrite Hn|]. intros [|a t]; discriminate.
      * split; [exists n; cbn; now rewrite Hn|].
        intros [|a t] H; cbn in H.
        -- injection H as H1. now apply Hc.
        -- injection H as _ H2. destruct t; discriminate.
    + split; [exists n; cbn in *; now rewrite Hn at 1|].
      intros [|a t] Heq; cbn in Heq; [discriminate|].
      injection Heq as _ Heq. now apply (Hend t).
Qed.

(** X6: the runner keeps the target address without its trailing
    slashes: the address given is the one kept followed by slashes only,
    and the one kept does not end with a slash. *)
Theorem base_url_has_no_trailing_slash (w : World) (target : string) (production : bool) :
  let kept := base_url (session (EkkoTestRunner_init w target production)) in
  (exists n, target = kept +:+ slashes n) /\ forall t, kept <> t +:+ "/".
Proof.
  assert (Hkept : base_url (session (EkkoTestRunner_init w target production))
                  = rstrip_slash target).
  { unfold EkkoTestRunner_init, update_headers. step_monad.
    destruct production; [destruct (w_bypass w) as [secret|];
                          [destruct (String.eqb secret "")|]|]; reflexivity. }
  cbv zeta. rewrite Hkept. apply rstrip_slash_splits.
Qed.

(** X7: after construction the session sends the user agent and the
    content type of the script, whatever a fresh session sends; the
    bypass header is the secret of the environment when the run is for
    production and the secret is set and not empty, and otherwise is
    not touched.  The console shows the first eight characters of the
    secret only. *)
Theorem headers_after_construction (w : World) (target : string) (production : bool) :
  let r := EkkoTestRunner_init w target production in
  let bypass := "x-vercel-protection-bypass" in
  assoc "User-Agent" (http_headers r) = Some "Ekko-Test-Runner/1.0-Python"
  /\ assoc "Content-Type" (http_headers r) = Some "application/json"
  /\ match (if production then w_bypass w else None) with
     | Some secret =>
         if String.eqb secret "" then
           assoc bypass (http_headers r) = assoc bypass (w_session_headers w)
         else
           assoc bypass (http_headers r) = Some secret
           /\ mkLogLine "INFO" ("Using bypass secret: " +:+ str_take 8 secret +:+ "...")
              ∈ console r
     | None => assoc bypass (http_headers r) = assoc bypass (w_session_headers w)
     end.
Proof.
  cbv zeta. unfold EkkoTestRunner_init, update_headers. step_monad.
  destruct production; [destruct (w_bypass w) as [secret|];
                        [destruct (String.eqb secret "")|]|];
    cbn; unfold dict_merge; cbn; rewrite ?assoc_dict_set; cbn;
    repeat split; try reflexivity.
  set_solver.
Qed.

(** ** The login *)

Lemma make_graphql_request_value (json_dumps : Json -> string) (query : string)
    (variables : option Json) (token : option string) (r : Runner) (resp : Response)
    (v : Json) :
  (forall n req, endpoint r n req = Answer resp) ->
  status_code resp = 200 ->
  json resp = inr v ->
  (make_graphql_request json_dumps query variables token r).1 = Returned v.
Proof.
  intros Hep Hstatus Hjson.
  unfold make_graphql_request, http_session_request. step_monad. cbn.
  match goal with
  | |- context [send ?p ?ep ?req ?k ?n] =>
      destruct (send_constant p ep req resp k n Hep) as [made ->]
  end.
  cbn. rewrite Hstatus. cbn. now rewrite Hjson.
Qed.

(** An uncached key with an account: the call is the login request and
    then what the script does with its outcome. *)
Lemma authenticate_user_uncached (json_dumps : Json -> string) (key : string) (r : Runner)
    (account : TestAccount) :
  tokens (session r) !! key = None ->
  accounts (session r) !! key = Some account ->
  let out := make_graphql_request json_dumps login_mutation
               (Some (login_variables account)) None r in
  authenticate_user json_dumps key r
  = match out.1 with
    | Raised e => (Raised e, out.2)
    | Returned response =>
        match py_in "errors" response with
        | Raised e => (Raised e, out.2)
        | Returned true =>
            match py_getitem response "errors" with
            | Raised e => (Raised e, out.2)
            | Returned errors =>
                (Raised (mkExc Exception_
                           ("Authentication failed: " +:+ json_dumps errors)), out.2)
            end
        | Returned false =>
            match login_token response with
            | Raised e => (Raised e, out.2)
            | Returned got =>
                if truthy got then
                  match py_getitem response "data" with
                  | Raised e => (Raised e, out.2)
                  | Returned data =>
                      match py_getitem data "login" with
                      | Raised e => (Raised e, out.2)
                      | Returned login =>
                          match py_getitem login "token" with
                          | Raised e => (Raised e, out.2)
                          | Returned token =>
                              (Returned token,
                               set_console
                                 (fun c => c ++ [mkLogLine "SUCCESS"
                                                   ("Successfully authenticated "
                                                    +:+ email account)])
                                 (set_session
                                    (set_tokens (fun t => <[key := token]> t)) out.2))
                          end
                      end
                  end
                else (Raised (mkExc Exception_ "Login failed: No token received"), out.2)
            end
        end
    end.
Proof.
  intros Ht Ha. cbv zeta. unfold authenticate_user, login_token, login_variables.
  step_monad. rewrite Ht, Ha.
  destruct (make_graphql_request _ _ _ _ _) as [[response|e] r1]; cbn [fst snd];
    [|reflexivity].
  destruct (py_in "errors" response) as [[]|e]; cbn [fst snd]; [| |reflexivity].
  - now destruct (py_getitem response "errors").
  - destruct (py_get response "data" (JObj [])) as [data|e]; [|reflexivity].
    destruct (py_get data "login" (JObj [])) as [login|e]; [|reflexivity].
    destruct (py_get login "token" JNull) as [got|e]; [|reflexivity].
    destruct (truthy got); cbn [negb fst snd]; [|reflexivity].
    destruct (py_getitem response "data") as [data'|e]; [|reflexivity].
    destruct (py_getitem data' "login") as [login'|e]; [|reflexivity].
    now destruct (py_getitem login' "token").
Qed.

Lemma py_in_member (k : string) (members : list (string * Json)) :
  py_in k (JObj members)
  = Returned (match assoc k members with Some _ => true | None => false end).
Proof. cbn. now destruct (assoc k members). Qed.

Lemma py_getitem_get (v : Json) (k : string) (x dflt : Json) :
  py_getitem v k = Returned x -> py_get v k dflt = Returned x.
Proof.
  destruct v; cbn; try discriminate.
  destruct (assoc k members); [now intros [= ->] | discriminate].
Qed.

(** X8: a login that the target answers with 200 and an object that has
    no [errors] member and a true value under data, login, token returns
    that value and caches it under the key; one request, the login of
    the account, has been handed to the HTTP session. *)
Theorem login_caches_the_token (json_dumps : Json -> string) (key : string) (r : Runner)
    (account : TestAccount) (resp : Response)
    (members data login : list (string * Json)) (token : Json) :
  (forall n req, endpoint r n req = Answer resp) ->
  status_code resp = 200 ->
  json resp = inr (JObj members) ->
  assoc "errors" members = None ->
  assoc "data" members = Some (JObj data) ->
  assoc "login" data = Some (JObj login) ->
  assoc "token" login = Some token ->
  truthy token = true ->
  tokens (session r) !! key = None ->
  accounts (session r) !! key = Some account ->
  let out := authenticate_user json_dumps key r in
  out.1 = Returned token
  /\ tokens (session out.2) = <[key := token]> (tokens (session r))
  /\ posted out.2
     = posted r ++ [graphql_request login_mutation (Some (login_variables account)) None r].
Proof.
  intros Hep Hstatus Hjson Herr Hdata Hlogin Htoken Htrue Ht Ha out. subst out.
  rewrite (authenticate_user_uncached _ _ _ _ Ht Ha).
  rewrite (make_graphql_request_value _ _ _ _ _ _ _ Hep Hstatus Hjson).
  rewrite py_in_member, Herr. unfold login_token. cbn. rewrite Hdata. cbn.
  rewrite Hlogin. cbn. rewrite Htoken. cbn. rewrite Htrue.
  destruct (make_graphql_request_frame json_dumps login_mutation
              (Some (login_variables account)) None r)
    as ((_ & Hs & _) & Hp & _).
  cbv zeta in Hs, Hp. cbn. rewrite Hs, Hp. repeat split.
Qed.

Lemma login_caches_the_token_witness :
  let out :=
    authenticate_user Sample.dumps "admin" (Sample.runner_on (Sample.ok Sample.login_ok)) in
  out.1 = Returned (JStr "abc")
  /\ tokens (session out.2) !! "admin" = Some (JStr "abc")
  /\ length (posted out.2) = 1%nat.
Proof.
  cbv zeta.
  destruct (login_caches_the_token Sample.dumps "admin"
              (Sample.runner_on (Sample.ok Sample.login_ok))
              (mkTestAccount "admin@ekko.earth" "Password123!") (Sample.ok Sample.login_ok)
              [("data", JObj [("login", JObj [("token", JStr "abc")])])]
              [("login", JObj [("token", JStr "abc")])] [("token", JStr "abc")] (JStr "abc")
              (fun _ _ => eq_refl) eq_refl eq_refl eq_refl eq_refl eq_refl eq_refl eq_refl
              eq_refl eq_refl) as (Hret & Htok & Hposted).
  split; [exact Hret | split].
  - rewrite Htok. apply lookup_insert_eq.
  - rewrite Hposted. reflexivity.
Defined.

(** X9: an answer with an [errors] member fails the login with
    "Authentication failed:" and the rendering of the errors, whatever
    else the answer holds, a token included; the session is left as it
    was, so nothing is cached. *)
Theorem login_with_errors_fails (json_dumps : Json -> string) (key : string) (r : Runner)
    (account : TestAccount) (resp : Response) (members : list (string * Json))
    (errors : Json) :
  (forall n req, endpoint r n req = Answer resp) ->
  status_code resp = 200 ->
  json resp = inr (JObj members) ->
  assoc "errors" members = Some errors ->
  tokens (session r) !! key = None ->
  accounts (session r) !! key = Some account ->
  let out := authenticate_user json_dumps key r in
  out.1 = Raised (mkExc Exception_ ("Authentication failed: " +:+ json_dumps errors))
  /\ session out.2 = session r.
Proof.
  intros Hep Hstatus Hjson Herr Ht Ha out. subst out.
  rewrite (authenticate_user_uncached _ _ _ _ Ht Ha).
  rewrite (make_graphql_request_value _ _ _ _ _ _ _ Hep Hstatus Hjson).
  rewrite py_in_member, Herr. cbn. rewrite Herr. cbn.
  split; [reflexivity|].
  now destruct (make_graphql_request_frame json_dumps login_mutation
                  (Some (login_variables account)) None r) as ((_ & Hs & _) & _).
Qed.

Lemma login_with_errors_fails_witness :
  let answer :=
    JObj [("errors", JArr [JObj [("message", JStr "Invalid credentials")]]);
          ("data", JObj [("login", JObj [("token", JStr "abc")])])] in
  let out := authenticate_user Sample.dumps "admin" (Sample.runner_on (Sample.ok answer)) in
  out.1 = Raised (mkExc Exception_ "Authentication failed: [...]")
  /\ tokens (session out.2) !! "admin" = None.
Proof.
  cbv zeta.
  destruct (login_with_errors_fails Sample.dumps "admin"
              (Sample.runner_on
                 (Sample.ok (JObj [("errors", JArr [JObj [("message", JStr "Invalid credentials")]]);
                                   ("data", JObj [("login", JObj [("token", JStr "abc")])])])))
              (mkTestAccount "admin@ekko.earth" "Password123!") _ _
              (JArr [JObj [("message", JStr "Invalid credentials")]])
              (fun _ _ => eq_refl) eq_refl eq_refl eq_refl eq_refl eq_refl) as [Hret Hs].
  split; [exact Hret|]. rewrite Hs. reflexivity.
Defined.

(** X10: an answer without errors whose value under data, login, token
    is missing or false (null, the empty text, zero) fails the login
    with "Login failed: No token received" and caches nothing. *)
Theorem login_without_token_fails (json_dumps : Json -> string) (key : string) (r : Runner)
    (account : TestAccount) (resp : Response) (v got : Json) :
  (forall n req, endpoint r n req = Answer resp) ->
  status_code resp = 200 ->
  json resp = inr v ->
  py_in "errors" v = Returned false ->
  login_token v = Returned got ->
  truthy got = false ->
  tokens (session r) !! key = None ->
  accounts (session r) !! key = Some account ->
  let out := authenticate_user json_dumps key r in
  out.1 = Raised (mkExc Exception_ "Login failed: No token received")
  /\ session out.2 = session r.
Proof.
  intros Hep Hstatus Hjson Herr Hgot Hfalse Ht Ha out. subst out.
  rewrite (authenticate_user_uncached _ _ _ _ Ht Ha).
  rewrite (make_graphql_request_value _ _ _ _ _ _ _ Hep Hstatus Hjson).
  rewrite Herr, Hgot, Hfalse. cbn.
  split; [reflexivity|].
  now destruct (make_graphql_request_frame json_dumps login_mutation
                  (Some (login_variables account)) None r) as ((_ & Hs & _) & _).
Qed.

Lemma login_without_token_fails_witness :
  let answer := JObj [("data", JObj [("login", JObj [("token", JStr "")])])] in
  (authenticate_user Sample.dumps "admin" (Sample.runner_on (Sample.ok answer))).1
  = Raised (mkExc Exception_ "Login failed: No token received").
Proof.
  cbv zeta.
  apply (login_without_token_fails Sample.dumps "admin"
           (Sample.runner_on
              (Sample.ok (JObj [("data", JObj [("login", JObj [("token", JStr "")])])])))
           (mkTestAccount "admin@ekko.earth" "Password123!") _ _ (JStr "")
           (fun _ _ => eq_refl) eq_refl eq_refl eq_refl eq_refl eq_refl eq_refl eq_refl).
Defined.

(** X11: the default of [get('data', {})] covers a missing member only:
    an answer without errors whose [data] member is there but is not an
    object, null for one, fails the login with an [AttributeError], not
    with the message of the script. *)
Theorem login_with_null_data_fails (json_dumps : Json -> string) (key : string) (r : Runner)
    (account : TestAccount) (resp : Response) (members : list (string * Json))
    (data : Json) :
  (forall n req, endpoint r n req = Answer resp) ->
  status_code resp = 200 ->
  json resp = inr (JObj members) ->
  assoc "errors" members = None ->
  assoc "data" members = Some data ->
  match data with JObj _ => False | _ => True end ->
  tokens (session r) !! key = None ->
  accounts (session r) !! key = Some account ->
  (authenticate_user json_dumps key r).1
  = Raised (mkExc AttributeError
              ("'" +:+ py_type_name data +:+ "' object has no attribute 'get'")).
Proof.
  intros Hep Hstatus Hjson Herr Hdata Hshape Ht Ha.
  rewrite (authenticate_user_uncached _ _ _ _ Ht Ha).
  rewrite (make_graphql_request_value _ _ _ _ _ _ _ Hep Hstatus Hjson).
  rewrite py_in_member, Herr. unfold login_token. cbn. rewrite Hdata. cbn.
  destruct data; cbn; try reflexivity. contradiction.
Qed.

Lemma login_with_null_data_fails_witness :
  (authenticate_user Sample.dumps "admin"
     (Sample.runner_on (Sample.ok (JObj [("data", JNull)])))).1
  = Raised (mkExc AttributeError "'NoneType' object has no attribute 'get'").
Proof.
  apply (login_with_null_data_fails Sample.dumps "admin"
           (Sample.runner_on (Sample.ok (JObj [("data", JNull)])))
           (mkTestAccount "admin@ekko.earth" "Password123!") _ _ JNull
           (fun _ _ => eq_refl) eq_refl eq_refl eq_refl eq_refl I eq_refl eq_refl).
Defined.

Lemma authenticate_user_unknown_key_raises (json_dumps : Json -> string) (key : string)
    (r : Runner) :
  tokens (session r) !! key = None ->
  accounts (session r) !! key = None ->
  authenticate_user json_dumps key r = (Raised (mkExc KeyError (py_repr key)), r).
Proof.
  intros Ht Ha. unfold authenticate_user. step_monad. now rewrite Ht, Ha.
Qed.

(** What a call of [authenticate_user] does to the session: nothing
    when it raises or finds the key cached, and otherwise it stores the
    token it returns, a true value, under the key. *)
Lemma authenticate_user_session (json_dumps : Json -> string) (key : string) (r : Runner) :
  let out := authenticate_user json_dumps key r in
  match out.1 with
  | Raised _ => session out.2 = session r
  | Returned token =>
      (tokens (session r) !! key = Some token /\ out.2 = r)
      \/ (tokens (session r) !! key = None
          /\ truthy token = true
          /\ session out.2 = set_tokens (fun t => <[key := token]> t) (session r))
  end.
Proof.
  cbv zeta.
  destruct (tokens (session r) !! key) as [cached|] eqn:Ht.
  { rewrite (authenticate_user_cached _ _ _ _ Ht). cbn. now left. }
  destruct (accounts (session r) !! key) as [account|] eqn:Ha.
  2: { now rewrite (authenticate_user_unknown_key_raises json_dumps key r Ht Ha). }
  rewrite (authenticate_user_uncached _ _ _ _ Ht Ha).
  destruct (make_graphql_request_frame json_dumps login_mutation
              (Some (login_variables account)) None r) as ((_ & Hs & _) & _).
  cbv zeta in Hs.
  destruct (make_graphql_request _ _ _ _ _) as [[response|e] r1]; cbn in *; [|assumption].
  destruct (py_in "errors" response) as [[]|e]; cbn; [| |assumption].
  { now destruct (py_getitem response "errors"). }
  unfold login_token.
  destruct (py_get response "data" (JObj [])) as [data|e] eqn:Hd; cbn; [|assumption].
  destruct (py_get data "login" (JObj [])) as [login|e] eqn:Hl; cbn; [|assumption].
  destruct (py_get login "token" JNull) as [got|e] eqn:Hg; cbn; [|assumption].
  destruct (truthy got) eqn:Htrue; cbn; [|assumption].
  destruct (py_getitem response "data") as [data'|e] eqn:Hd'; cbn; [|assumption].
  rewrite (py_getitem_get _ _ _ (JObj []) Hd') in Hd. injection Hd as <-.
  destruct (py_getitem data' "login") as [login'|e] eqn:Hl'; cbn; [|assumption].
  rewrite (py_getitem_get _ _ _ (JObj []) Hl') in Hl. injection Hl as <-.
  destruct (py_getitem login' "token") as [token|e] eqn:Hg'; cbn; [|assumption].
  rewrite (py_getitem_get _ _ _ JNull Hg') in Hg. injection Hg as <-.
  right. now rewrite Hs.
Qed.

(** X12: a call of [authenticate_user] that raises leaves the session
    as it was: accounts, tokens and results are those before. *)
Theorem failed_login_leaves_session (json_dumps : Json -> string) (key : string)
    (r : Runner) (e : Exc) (r' : Runner) :
  authenticate_user json_dumps key r = (Raised e, r') ->
  session r' = session r.
Proof.
  intros Hrun. pose proof (authenticate_user_session json_dumps key r) as H.
  cbv zeta in H. now rewrite Hrun in H.
Qed.

Lemma failed_login_leaves_session_witness :
  session (authenticate_user Sample.dumps "admin" (Sample.runner_on Sample.denied)).2
  = session (Sample.runner_on Sample.denied).
Proof.
  apply (failed_login_leaves_session Sample.dumps "admin" (Sample.runner_on Sample.denied)
           (mkExc Exception_ "GraphQL request failed: 401 Unauthorized")).
  vm_compute. reflexivity.
Defined.

(** X13: a call of [authenticate_user] for a key touches no other part
    of the session: the accounts, the results and the tokens of the
    other keys stay, and a token that is cached for the key is never
    replaced. *)
Theorem login_touches_its_key_only (json_dumps : Json -> string) (key : string) (r : Runner) :
  let r' := (authenticate_user json_dumps key r).2 in
  accounts (session r') = accounts (session r)
  /\ results (session r') = results (session r)
  /\ base_url (session r') = base_url (session r)
  /\ (forall other, other <> key ->
      tokens (session r') !! other = tokens (session r) !! other)
  /\ (forall cached, tokens (session r) !! key = Some cached ->
      tokens (session r') !! key = Some cached).
Proof.
  pose proof (authenticate_user_session json_dumps key r) as H. cbv zeta in *.
  destruct (authenticate_user json_dumps key r) as [[token|e] r']; cbn in *.
  - destruct H as [[Hc ->] | (Hnone & _ & ->)]; cbn.
    + repeat split; auto.
    + repeat split; auto.
      * intros other Hne. now rewrite lookup_insert_ne.
      * intros cached Hc. rewrite Hnone in Hc. discriminate.
  - rewrite H. repeat split; auto.
Qed.

Lemma authenticate_user_truthy (json_dumps : Json -> string) (key : string) (r : Runner) :
  tokens_truthy r ->
  tokens_truthy (authenticate_user json_dumps key r).2
  /\ forall token, (authenticate_user json_dumps key r).1 = Returned token ->
     truthy token = true.
Proof.
  intros Hinv. pose proof (authenticate_user_session json_dumps key r) as H.
  cbv zeta in H. unfold tokens_truthy in *.
  destruct (authenticate_user json_dumps key r) as [[token|e] r']; cbn in *.
  - destruct H as [[Hc ->] | (Hnone & Htrue & Hs)].
    + split; [assumption|]. intros t [= <-]. eauto.
    + split; [|now intros t [= <-]].
      intros k t. rewrite Hs. cbn.
      destruct (decide (key = k)) as [<-|Hne].
      * rewrite lookup_insert_eq. now intros [= <-].
      * rewrite lookup_insert_ne by assumption. eauto.
  - rewrite H. split; [assumption | discriminate].
Qed.

(** X14: the cache holds true values only: when every cached token is a
    true value before a call of [authenticate_user], so is every cached
    token after it, and so is the token the call returns. *)
Theorem cached_tokens_are_true_values (json_dumps : Json -> string) (key : string)
    (r : Runner) :
  tokens_truthy r ->
  tokens_truthy (authenticate_user json_dumps key r).2
  /\ forall token, (authenticate_user json_dumps key r).1 = Returned token ->
     truthy token = true.
Proof. apply authenticate_user_truthy. Qed.

Lemma fresh_runner_tokens_truthy (w : World) (target : string) (production : bool) :
  tokens_truthy (EkkoTestRunner_init w target production).
Proof.
  intros key token.
  assert (Hs : tokens (session (EkkoTestRunner_init w target production)) = ∅).
  { unfold EkkoTestRunner_init, update_headers. step_monad.
    destruct production; [destruct (w_bypass w) as [secret|];
                          [destruct (String.eqb secret "")|]|]; reflexivity. }
  rewrite Hs, lookup_empty. discriminate.
Defined.

Lemma cached_tokens_are_true_values_witness :
  tokens_truthy
    (authenticate_user Sample.dumps "admin" (Sample.runner_on (Sample.ok Sample.login_ok))).2
  /\ forall token,
       (authenticate_user Sample.dumps "admin"
          (Sample.runner_on (Sample.ok Sample.login_ok))).1 = Returned token ->
       truthy token = true.
Proof.
  apply (cached_tokens_are_true_values Sample.dumps "admin"
           (Sample.runner_on (Sample.ok Sample.login_ok))).
  apply fresh_runner_tokens_truthy.
Defined.

(** ** The checks *)

(** With true values in the cache, the three guards of
    [test_authentication] do not fire: the check is its three logins. *)
Lemma test_authentication_steps (json_dumps : Json -> string) (r : Runner) :
  tokens_truthy r ->
  Checks.test_authentication json_dumps r
  = (authenticate_user json_dumps "admin" ≫= fun _ =>
     authenticate_user json_dumps "london_manager" ≫= fun _ =>
     authenticate_user json_dumps "westminster_staff" ≫= fun _ => mret tt) r.
Proof.
  intros Hinv. unfold Checks.test_authentication, mbind, M_bind, bind.
  destruct (authenticate_user_truthy json_dumps "admin" r Hinv) as [Hinv1 Ht1].
  destruct (authenticate_user json_dumps "admin" r) as [[t1|e] r1]; cbn in *; [|reflexivity].
  rewrite (Ht1 t1 eq_refl). cbn.
  destruct (authenticate_user_truthy json_dumps "london_manager" r1 Hinv1) as [Hinv2 Ht2].
  destruct (authenticate_user json_dumps "london_manager" r1) as [[t2|e] r2]; cbn in *;
    [|reflexivity].
  rewrite (Ht2 t2 eq_refl). cbn.
  destruct (authenticate_user_truthy json_dumps "westminster_staff" r2 Hinv2) as [_ Ht3].
  destruct (authenticate_user json_dumps "westminster_staff" r2) as [[t3|e] r3]; cbn in *;
    [|reflexivity].
  now rewrite (Ht3 t3 eq_refl).
Qed.

(** X15: on a session whose cached tokens are true values, as every
    session reached from a fresh one is, the guards of
    [test_authentication] are dead code: the check is the three logins
    one after the other, and fails exactly when one of them does. *)
Theorem test_authentication_is_three_logins (json_dumps : Json -> string) (r : Runner) :
  tokens_truthy r ->
  Checks.test_authentication json_dumps r
  = (authenticate_user json_dumps "admin" ≫= fun _ =>
     authenticate_user json_dumps "london_manager" ≫= fun _ =>
     authenticate_user json_dumps "westminster_staff" ≫= fun _ => mret tt) r.
Proof. apply test_authentication_steps. Qed.

Lemma test_authentication_is_three_logins_witness :
  Checks.test_authentication Sample.dumps (Sample.runner_on Sample.denied)
  = (authenticate_user Sample.dumps "admin" ≫= fun _ =>
     authenticate_user Sample.dumps "london_manager" ≫= fun _ =>
     authenticate_user Sample.dumps "westminster_staff" ≫= fun _ => mret tt)
      (Sample.runner_on Sample.denied).
Proof.
  apply (test_authentication_is_three_logins Sample.dumps (Sample.runner_on Sample.denied)).
  apply fresh_runner_tokens_truthy.
Defined.

(** X16: once [test_authentication] has passed, its three identities
    are cached, and running it again passes without a request or any
    other change. *)
Theorem test_authentication_again_is_free (json_dumps : Json -> string) (r r' : Runner) :
  tokens_truthy r ->
  Checks.test_authentication json_dumps r = (Returned tt, r') ->
  (is_Some (tokens (session r') !! "admin")
   /\ is_Some (tokens (session r') !! "london_manager")
   /\ is_Some (tokens (session r') !! "westminster_staff"))
  /\ Checks.test_authentication json_dumps r' = (Returned tt, r').
Proof.
  intros Hinv Hrun. rewrite (test_authentication_steps _ _ Hinv) in Hrun.
  apply bind_returned in Hrun as (t1 & r1 & H1 & Hrun).
  apply bind_returned in Hrun as (t2 & r2 & H2 & Hrun).
  apply bind_returned in Hrun as (t3 & r3 & H3 & Hrun).
  injection Hrun as <-.
  destruct (authenticate_user_truthy json_dumps "admin" r Hinv) as [Hinv1 _].
  rewrite H1 in Hinv1. cbn in Hinv1.
  destruct (authenticate_user_truthy json_dumps "london_manager" r1 Hinv1) as [Hinv2 _].
  rewrite H2 in Hinv2. cbn in Hinv2.
  destruct (authenticate_user_truthy json_dumps "westminster_staff" r2 Hinv2) as [Hinv3 _].
  rewrite H3 in Hinv3. cbn in Hinv3.
  pose proof (authenticate_user_tokens json_dumps "admin" r) as [Hput1 _].
  pose proof (authenticate_user_tokens json_dumps "london_manager" r1) as [Hput2 Hkeep2].
  pose proof (authenticate_user_tokens json_dumps "westminster_staff" r2) as [Hput3 Hkeep3].
  rewrite H1 in Hput1. rewrite H2 in Hput2, Hkeep2. rewrite H3 in Hput3, Hkeep3.
  cbn in *.
  assert (Hc1 : tokens (session r3) !! "admin" = Some t1) by auto.
  assert (Hc2 : tokens (session r3) !! "london_manager" = Some t2) by auto.
  assert (Hc3 : tokens (session r3) !! "westminster_staff" = Some t3) by auto.
  split; [rewrite Hc1, Hc2, Hc3; repeat split; eauto|].
  rewrite (test_authentication_steps _ _ Hinv3).
  unfold mbind, M_bind, bind.
  rewrite (authenticate_user_cached _ _ _ _ Hc1), (authenticate_user_cached _ _ _ _ Hc2),
    (authenticate_user_cached _ _ _ _ Hc3).
  reflexivity.
Qed.

Lemma test_authentication_again_is_free_witness :
  let r' :=
    (Checks.test_authentication Sample.dumps
       (Sample.runner_on (Sample.ok Sample.login_ok))).2 in
  length (posted r') = 3%nat
  /\ Checks.test_authentication Sample.dumps r' = (Returned tt, r').
Proof.
  cbv zeta. split; [reflexivity|].
  apply (test_authentication_again_is_free Sample.dumps
           (Sample.runner_on (Sample.ok Sample.login_ok))).
  - apply fresh_runner_tokens_truthy.
  - vm_compute. reflexivity.
Defined.

Lemma http_session_request_constant (method url : string) (body : option Json)
    (headers : list (string * string)) (timeout : Z) (r : Runner) (resp : Response) :
  (forall n req, endpoint r n req = Answer resp) ->
  let req := mkRequest method url body (dict_merge (http_headers r) headers) timeout in
  exists made,
    http_session_request method url body headers timeout r
    = (Returned resp,
       set_posted (fun l => l ++ [req]) (set_wire (fun l => l ++ replicate made req) r)).
Proof.
  intros Hep req. unfold http_session_request.
  fold req.
  destruct (send_constant (max_retries r) (endpoint r) req resp (total (max_retries r))
              (length (wire r)) Hep) as [made ->].
  now exists made.
Qed.

(** X17: [test_error_handling] passes on every decoded answer: when the
    target answers the login with the invalid credentials with 200 and
    a body that decodes, the check returns, whether the answer reports
    errors or is a successful login. *)
Theorem test_error_handling_passes_on_any_answer (json_dumps : Json -> string) (r : Runner)
    (resp : Response) (v : Json) :
  (forall n req, endpoint r n req = Answer resp) ->
  status_code resp = 200 ->
  json resp = inr v ->
  (Checks.test_error_handling json_dumps r).1 = Returned tt.
Proof.
  intros Hep Hstatus Hjson. unfold Checks.test_error_handling.
  pose proof (make_graphql_request_value json_dumps Checks.invalid_mutation
    (Some (JObj [("input", JObj [("email", JStr "invalid@example.com");
                                 ("password", JStr "wrongpassword")])])) None r resp v
    Hep Hstatus Hjson) as Hv.
  step_monad.
  destruct (make_graphql_request _ _ _ _ _) as [c r1]; cbn in Hv; subst c. cbn.
  destruct v; cbn; try reflexivity.
  - now destruct (str_contains "errors" s).
  - now destruct (existsb _ items).
  - now destruct (bool_decide _).
Qed.

Lemma test_error_handling_passes_on_any_answer_witness :
  (Checks.test_error_handling Sample.dumps (Sample.runner_on (Sample.ok Sample.login_ok))).1
  = Returned tt.
Proof.
  apply (test_error_handling_passes_on_any_answer Sample.dumps
           (Sample.runner_on (Sample.ok Sample.login_ok)) (Sample.ok Sample.login_ok)
           Sample.login_ok (fun _ _ => eq_refl) eq_refl eq_refl).
Defined.

(** X18: an exception of the [Exception] family that leaves
    [test_error_handling] has "Network request failed" in its
    description: every other failure of the request is swallowed. *)
Theorem test_error_handling_raises_network_failures_only (json_dumps : Json -> string)
    (r : Runner) (e : Exc) (r' : Runner) :
  Checks.test_error_handling json_dumps r = (Raised e, r') ->
  is_Exception (exc_class e) = true ->
  str_contains "Network request failed" (exc_str e) = true.
Proof.
  unfold Checks.test_error_handling. step_monad.
  destruct (make_graphql_request _ _ _ _ _) as [[response|e0] r1]; cbn.
  - destruct (py_in "errors" response) as [[]|e1]; cbn.
    + discriminate.
    + discriminate.
    + destruct (is_Exception (exc_class e1)) eqn:Hcls; cbn.
      * destruct (str_contains _ (exc_str e1)) eqn:Hc; [|discriminate].
        now intros [= <- <-] _.
      * intros [= <- <-] Hex. congruence.
  - destruct (is_Exception (exc_class e0)) eqn:Hcls; cbn.
    + destruct (str_contains _ (exc_str e0)) eqn:Hc; [|discriminate].
      now intros [= <- <-] _.
    + intros [= <- <-] Hex. congruence.
Qed.

Lemma test_error_handling_raises_network_failures_only_witness :
  (Checks.test_error_handling Sample.dumps
     (EkkoTestRunner_init (Sample.world (fun _ _ => Broken "Connection refused"))
        "http://localhost:3000" false)).1
  = Raised (mkExc Exception_ "Network request failed: Connection refused")
  /\ str_contains "Network request failed" "Network request failed: Connection refused"
     = true.
Proof.
  split; [reflexivity|].
  apply (test_error_handling_raises_network_failures_only Sample.dumps
           (EkkoTestRunner_init (Sample.world (fun _ _ => Broken "Connection refused"))
              "http://localhost:3000" false)
           (mkExc Exception_ "Network request failed: Connection refused")
           (Checks.test_error_handling Sample.dumps
              (EkkoTestRunner_init (Sample.world (fun _ _ => Broken "Connection refused"))
                 "http://localhost:3000" false)).2).
  - vm_compute. reflexivity.
  - reflexivity.
Defined.

(** X19: [test_audit_logging] fails exactly when the login of the
    administrator does: whatever the audit address answers, and also
    when it cannot be reached, the check returns. *)
Theorem test_audit_logging_fails_with_the_login_only (json_dumps str_other : Json -> string)
    (r : Runner) :
  (Checks.test_audit_logging json_dumps str_other r).1
  = match (authenticate_user json_dumps "admin" r).1 with
    | Returned _ => Returned tt
    | Raised e => Raised e
    end.
Proof.
  unfold Checks.test_audit_logging, http_session_request. step_monad.
  destruct (authenticate_user json_dumps "admin" r) as [[token|e] r1]; cbn; [|reflexivity].
  destruct (send _ _ _ _ _) as [[resp|what] made]; cbn; [|reflexivity].
  destruct (Z.eqb (status_code resp) 404); cbn; [reflexivity|].
  now destruct (negb (Z.eqb (status_code resp) 200)).
Qed.

Lemma authenticate_user_endpoint (json_dumps : Json -> string) (key : string) (r : Runner) :
  endpoint (authenticate_user json_dumps key r).2 = endpoint r
  /\ max_retries (authenticate_user json_dumps key r).2 = max_retries r
  /\ accounts (session (authenticate_user json_dumps key r).2) = accounts (session r).
Proof.
  destruct (tokens (session r) !! key) as [cached|] eqn:Ht.
  { now rewrite (authenticate_user_cached _ _ _ _ Ht). }
  destruct (accounts (session r) !! key) as [account|] eqn:Ha.
  2: { now rewrite (authenticate_user_unknown_key_raises json_dumps key r Ht Ha). }
  rewrite (authenticate_user_uncached _ _ _ _ Ht Ha).
  destruct (make_graphql_request_frame json_dumps login_mutation
              (Some (login_variables account)) None r) as ((_ & Hs & _ & Hm & He & _) & _).
  cbv zeta in Hs, Hm, He.
  repeat match goal with
         | |- context [match ?c with Returned _ => _ | Raised _ => _ end] => destruct c
         | |- context [if ?b then _ else _] => destruct b
         end; cbn; rewrite ?Hs, ?Hm, ?He; repeat split.
Qed.

(** Against a target that accepts every login, a call for a key that
    has an account returns. *)
Lemma authenticate_user_returns (json_dumps : Json -> string) (key : string) (r : Runner)
    (resp : Response) (v : Json) :
  (forall n req, endpoint r n req = Answer resp) ->
  status_code resp = 200 ->
  json resp = inr v ->
  accepts_login v ->
  is_Some (accounts (session r) !! key) ->
  exists token, (authenticate_user json_dumps key r).1 = Returned token.
Proof.
  intros Hep Hstatus Hjson (members & data & login & token & -> & Herr & Hd & Hl & Ht & Htrue)
    [account Ha].
  destruct (tokens (session r) !! key) as [cached|] eqn:Hc.
  { rewrite (authenticate_user_cached _ _ _ _ Hc). eauto. }
  rewrite (authenticate_user_uncached _ _ _ _ Hc Ha).
  rewrite (make_graphql_request_value _ _ _ _ _ _ _ Hep Hstatus Hjson).
  rewrite py_in_member, Herr. unfold login_token. cbn. rewrite Hd. cbn.
  rewrite Hl. cbn. rewrite Ht. cbn. rewrite Htrue. cbn. eauto.
Qed.

(** X20: [test_data_isolation] compares nothing: against a target that
    gives one and the same answer to every request, so that the two
    managers are shown the same data, the check passes as soon as that
    answer is a login without errors. *)
Theorem test_data_isolation_passes_on_equal_answers (json_dumps str_other : Json -> string)
    (r : Runner) (resp : Response) (v : Json) :
  (forall n req, endpoint r n req = Answer resp) ->
  status_code resp = 200 ->
  json resp = inr v ->
  accepts_login v ->
  is_Some (accounts (session r) !! "london_manager") ->
  is_Some (accounts (session r) !! "manchester_manager") ->
  (Checks.test_data_isolation json_dumps str_other r).1 = Returned tt.
Proof.
  intros Hep Hstatus Hjson Hv Ha1 Ha2.
  unfold Checks.test_data_isolation, mbind, M_bind, bind.
  destruct (authenticate_user_returns json_dumps "london_manager" r resp v
              Hep Hstatus Hjson Hv Ha1) as [t1 H1].
  destruct (authenticate_user_endpoint json_dumps "london_manager" r) as (He1 & _ & Hacc1).
  destruct (authenticate_user json_dumps "london_manager" r) as [c1 r1].
  cbn in H1, He1, Hacc1. subst c1.
  assert (Hep1 : forall n req, endpoint r1 n req = Answer resp) by (now rewrite He1).
  rewrite <- Hacc1 in Ha2.
  destruct (authenticate_user_returns json_dumps "manchester_manager" r1 resp v
              Hep1 Hstatus Hjson Hv Ha2) as [t2 H2].
  destruct (authenticate_user_endpoint json_dumps "manchester_manager" r1) as (He2 & _ & _).
  destruct (authenticate_user json_dumps "manchester_manager" r1) as [c2 r2].
  cbn in H2, He2. subst c2.
  assert (Hep2 : forall n req, endpoint r2 n req = Answer resp) by (now rewrite He2).
  pose proof (make_graphql_request_value json_dumps Checks.data_isolation_query None
                (Checks.token_arg str_other t1) r2 resp v Hep2 Hstatus Hjson) as Hq1.
  destruct (make_graphql_request_frame json_dumps Checks.data_isolation_query None
              (Checks.token_arg str_other t1) r2) as ((_ & _ & _ & _ & He3 & _) & _).
  cbv zeta in He3.
  destruct (make_graphql_request json_dumps Checks.data_isolation_query None
              (Checks.token_arg str_other t1) r2) as [c3 r3].
  cbn in Hq1, He3. subst c3.
  assert (Hep3 : forall n req, endpoint r3 n req = Answer resp) by (now rewrite He3).
  pose proof (make_graphql_request_value json_dumps Checks.data_isolation_query None
                (Checks.token_arg str_other t2) r3 resp v Hep3 Hstatus Hjson) as Hq2.
  destruct (make_graphql_request json_dumps Checks.data_isolation_query None
              (Checks.token_arg str_other t2) r3) as [c4 r4].
  cbn in Hq2. subst c4.
  destruct Hv as (members & data & login & token & -> & Herr & _).
  unfold lift. rewrite py_in_member, Herr. reflexivity.
Qed.

Lemma test_data_isolation_passes_on_equal_answers_witness :
  (Checks.test_data_isolation Sample.dumps Sample.dumps
     (Sample.runner_on (Sample.ok Sample.login_ok))).1 = Returned tt.
Proof.
  apply (test_data_isolation_passes_on_equal_answers Sample.dumps Sample.dumps
           (Sample.runner_on (Sample.ok Sample.login_ok)) (Sample.ok Sample.login_ok)
           Sample.login_ok (fun _ _ => eq_refl) eq_refl eq_refl).
  - exists [("data", JObj [("login", JObj [("token", JStr "abc")])])],
      [("login", JObj [("token", JStr "abc")])], [("token", JStr "abc")], (JStr "abc").
    repeat split.
  - eexists. reflexivity.
  - eexists. reflexivity.
Defined.

(** X21: when the health address answers 404, the check of the
    production infrastructure passes at once: the only request it has
    made is the GET of the health address, and it has not logged in, so
    the database is not tried. *)
Theorem test_production_infrastructure_stops_at_404 (json_dumps str_other : Json -> string)
    (r : Runner) (resp : Response) :
  (forall n req, endpoint r n req = Answer resp) ->
  status_code resp = 404 ->
  let out := Checks.test_production_infrastructure json_dumps str_other r in
  out.1 = Returned tt
  /\ posted out.2
     = posted r ++ [mkRequest "GET" (base_url (session r) +:+ "/api/health") None
                      (http_headers r) 10]
  /\ session out.2 = session r.
Proof.
  intros Hep Hstatus out. subst out.
  unfold Checks.test_production_infrastructure. step_monad.
  destruct (http_session_request_constant "GET" (base_url (session r) +:+ "/api/health")
              None [] 10 r resp Hep) as [made ->].
  cbn. rewrite Hstatus. cbn. repeat split.
Qed.

Lemma test_production_infrastructure_stops_at_404_witness :
  let out :=
    Checks.test_production_infrastructure Sample.dumps Sample.dumps
      (Sample.runner_on Sample.missing) in
  out.1 = Returned tt /\ length (posted out.2) = 1%nat
  /\ tokens (session out.2) !! "admin" = None.
Proof.
  cbv zeta.
  destruct (test_production_infrastructure_stops_at_404 Sample.dumps Sample.dumps
              (Sample.runner_on Sample.missing) Sample.missing (fun _ _ => eq_refl) eq_refl)
    as (Hret & Hposted & Hs).
  split; [exact Hret | split].
  - rewrite Hposted. reflexivity.
  - rewrite Hs. reflexivity.
Defined.

(** X22: the check of the materialized views passes exactly when the
    refresh address answers 200 or 404; its one request is a POST that
    carries, as bearer, the secret of the environment or, when there is
    none, the secret written in the script. *)
Theorem test_materialized_view_refresh_outcome (env_cron_secret : option string)
    (r : Runner) (resp : Response) :
  (forall n req, endpoint r n req = Answer resp) ->
  let out := Checks.test_materialized_view_refresh env_cron_secret r in
  (out.1 = Returned tt <-> status_code resp = 404 \/ status_code resp = 200)
  /\ exists req,
       posted out.2 = posted r ++ [req]
       /\ req_method req = "POST"
       /\ req_url req = base_url (session r) +:+ "/api/cron/refresh-materialized-views"
       /\ assoc "Authorization" (req_headers req)
          = Some ("Bearer " +:+ default Checks.default_cron_secret env_cron_secret).
Proof.
  intros Hep out. subst out.
  unfold Checks.test_materialized_view_refresh. step_monad.
  destruct (http_session_request_constant "POST"
              (base_url (session r) +:+ "/api/cron/refresh-materialized-views") None
              [("Authorization",
                "Bearer " +:+ default Checks.default_cron_secret env_cron_secret)]
              30 r resp Hep) as [made ->].
  cbn.
  destruct (Z.eqb_spec (status_code resp) 404) as [H404|H404]; cbn;
    [|destruct (Z.eqb_spec (status_code resp) 200) as [H200|H200]; cbn];
    (split; [split; [intros H; try discriminate H; auto | intros H; try reflexivity; lia]|]);
    eexists; (split; [reflexivity|]); cbn;
    (split; [reflexivity | split; [reflexivity|]]);
    apply assoc_dict_merge_one.
Qed.

Lemma test_materialized_view_refresh_outcome_witness :
  (Checks.test_materialized_view_refresh None (Sample.runner_on Sample.missing)).1
  = Returned tt
  /\ exists req,
       posted (Checks.test_materialized_view_refresh None
                 (Sample.runner_on Sample.missing)).2 = [req]
       /\ assoc "Authorization" (req_headers req)
          = Some "Bearer BSZmX2Xx6XjREN3BjnF6Eb7qSQDz17wu7DmCFxEPBsg=".
Proof.
  destruct (test_materialized_view_refresh_outcome None (Sample.runner_on Sample.missing)
              Sample.missing (fun _ _ => eq_refl))
    as [Hpass (req & Hposted & _ & _ & Hauth)].
  split; [apply Hpass; now left|].
  exists req. split; [exact Hposted | exact Hauth].
Defined.

(** ** The run as a whole *)

Lemma run_test_well_behaved (format_0f : float -> string) (id title : string)
    (check : M unit) (r : Runner) :
  well_behaved check ->
  (run_test format_0f id title check r).1 = Returned tt
  /\ disk_error (run_test format_0f id title check r).2 = disk_error r.
Proof.
  intros Hwell. unfold run_test, append_result. step_monad. cbn.
  match goal with
  | |- context [check ?r0] => destruct (Hwell r0) as [Hdisk Hexc]; destruct (check r0) as [[[]|e] r1]
  end; cbn in *.
  - now split.
  - rewrite Hexc. cbn. now split.
Qed.

Lemma run_plan_returns (format_0f : float -> string) (plan : list Step) :
  forall r : Runner,
  Forall step_well_behaved plan ->
  (run_plan format_0f plan r).1 = Returned tt
  /\ disk_error (run_plan format_0f plan r).2 = disk_error r.
Proof.
  assert (Hstep : forall s r, step_well_behaved s ->
            (run_step format_0f s r).1 = Returned tt
            /\ disk_error (run_step format_0f s r).2 = disk_error r).
  { intros [msg|id title check] r Hs; cbn [run_step].
    - now split.
    - now apply run_test_well_behaved. }
  induction plan as [|s rest IH]; intros r Hwell; [now split|].
  apply Forall_cons in Hwell as [Hs Hrest].
  destruct (Hstep s r Hs) as [Hret Hdisk].
  destruct rest as [|s' rest']; [exact (conj Hret Hdisk)|].
  change (run_plan format_0f (s :: s' :: rest'))
    with (run_step format_0f s ≫= fun _ => run_plan format_0f (s' :: rest')).
  unfold mbind, M_bind, bind.
  destruct (run_step format_0f s r) as [c r1]. cbn [fst snd] in *. subst c.
  destruct (IH r1 Hrest) as [Hret' Hdisk']. split; [exact Hret' | congruence].
Qed.

Lemma check_deployment_access_frame (r : Runner) :
  exists accessible r1,
    check_deployment_access r = (Returned accessible, r1)
    /\ session r1 = session r /\ disk_error r1 = disk_error r /\ files r1 = files r.
Proof.
  unfold check_deployment_access, http_session_request. step_monad. cbn.
  destruct (send _ _ _ _ _) as [[resp|what] made]; cbn; [|eauto 10].
  destruct (bool_decide _); cbn; [eauto 10|].
  destruct (negb _); cbn; eauto 10.
Qed.

(** [run] as a suite, from a state with the session, the disk and the
    files of the first one. *)
Lemma run_as_suite_frame (format_0f format_1f : float -> string) (self : TestBodies)
    (r : Runner) :
  exists r0,
    (session r0 = session r /\ disk_error r0 = disk_error r /\ files r0 = files r)
    /\ run format_0f format_1f self r
       = run_suite format_0f format_1f (phase1 self ++ phase2 self ++ phase3 self) r0.
Proof.
  unfold run.
  change (run_phase1_tests format_0f self) with (run_plan format_0f (phase1 self)).
  change (run_phase2_tests format_0f self) with (run_plan format_0f (phase2 self)).
  change (run_phase3_tests format_0f self) with (run_plan format_0f (phase3 self)).
  step_monad.
  match goal with
  | |- context [check_deployment_access ?r1] =>
      destruct (check_deployment_access_frame r1)
        as (accessible & r2 & -> & Hs & Hd & Hf)
  end.
  cbn in Hs, Hd, Hf.
  exists (if accessible then r2
          else set_console
                 (fun c => c ++ [mkLogLine "WARN" "Deployment is protected - tests may be limited"])
                 r2).
  split; [now destruct accessible|].
  unfold run_suite, mbind, M_bind, bind. rewrite run_plan_app.
  unfold mbind, M_bind, bind.
  destruct accessible.
  all: destruct (run_plan format_0f (phase1 self) _) as [[[]|?] ?]; [|reflexivity].
  all: rewrite run_plan_app; unfold mbind, M_bind, bind.
  all: destruct (run_plan format_0f (phase2 self) _) as [[[]|?] ?]; [|reflexivity].
  all: destruct (run_plan format_0f (phase3 self) _) as [[[]|?] ?]; reflexivity.
Qed.

Lemma phases_well_behaved (self : TestBodies) :
  Forall well_behaved (bodies self) ->
  Forall step_well_behaved (phase1 self ++ phase2 self ++ phase3 self).
Proof.
  unfold bodies. intros H.
  repeat match goal with
         | H : Forall _ (_ :: _) |- _ => apply Forall_cons in H as [? H]
         end.
  cbn [phase1 phase2 phase3 app].
  repeat (apply List.Forall_cons; [first [exact I | assumption]|]).
  apply List.Forall_nil.
Qed.

(** X23: when the checks raise nothing outside the [Exception] family
    and leave the disk alone, [run] goes through all its phases
    whatever fails in them, and ends on the report: it returns a
    boolean when the report file can be written, and raises the error
    of the disk when it cannot. *)
Theorem run_ends_on_the_report (format_0f format_1f : float -> string) (self : TestBodies)
    (r : Runner) :
  Forall well_behaved (bodies self) ->
  match disk_error r with
  | None => exists success, (run format_0f format_1f self r).1 = Returned success
  | Some e => (run format_0f format_1f self r).1 = Raised e
  end.
Proof.
  intros Hwell.
  destruct (run_as_suite_frame format_0f format_1f self r) as (r0 & (_ & Hd & _) & ->).
  destruct (run_plan_returns format_0f _ r0 (phases_well_behaved self Hwell))
    as [Hret Hdisk].
  unfold run_suite, mbind, M_bind, bind.
  destruct (run_plan format_0f _ r0) as [c r1]. cbn in Hret, Hdisk. subst c.
  destruct (generate_report_run format_0f format_1f r1) as [_ Hout].
  rewrite Hdisk, Hd in Hout.
  destruct (disk_error r); [exact Hout|]. destruct Hout as [Hb _]. eauto.
Qed.

Lemma mixed_bodies_well_behaved : Forall well_behaved (bodies Sample.mixed_bodies).
Proof. repeat (constructor; [intros r; split; reflexivity|]). constructor. Defined.

Lemma run_ends_on_the_report_witness :
  exists success,
    (run Sample.digits Sample.digits Sample.mixed_bodies
       (Sample.runner_on (Sample.ok Sample.login_ok))).1 = Returned success.
Proof.
  apply (run_ends_on_the_report Sample.digits Sample.digits Sample.mixed_bodies
           (Sample.runner_on (Sample.ok Sample.login_ok)) mixed_bodies_well_behaved).
Defined.

(** X24: a check that is interrupted ends the run: when the first check
    raises an exception from outside the [Exception] family, [run]
    raises it; if the check left the results and the files alone, the
    run has recorded no outcome and written no report. *)
Theorem interrupt_in_first_check_ends_the_run (format_0f format_1f : float -> string)
    (self : TestBodies) (r : Runner) (e : Exc) :
  is_Exception (exc_class e) = false ->
  (forall r0,
     (test_authentication self r0).1 = Raised e
     /\ results (session (test_authentication self r0).2) = results (session r0)
     /\ files (test_authentication self r0).2 = files r0) ->
  let out := run format_0f format_1f self r in
  out.1 = Raised e
  /\ results (session out.2) = results (session r)
  /\ files out.2 = files r.
Proof.
  intros Hcls Hcheck out. subst out.
  destruct (run_as_suite_frame format_0f format_1f self r) as (r0 & (Hs & _ & Hf) & ->).
  unfold run_suite. cbn [phase1 phase2 phase3 app run_plan run_step].
  unfold run_test. step_monad. cbn.
  match goal with
  | |- context [test_authentication self ?r1] =>
      destruct (Hcheck r1) as (Hraise & Hres & Hfiles);
      destruct (test_authentication self r1) as [c r2]
  end.
  cbn in Hraise, Hres, Hfiles. subst c. cbn. rewrite Hcls. cbn.
  rewrite Hres, Hfiles, Hs, Hf. repeat split.
Qed.

Lemma interrupt_in_first_check_ends_the_run_witness :
  let interrupted_first :=
    mkTestBodies Sample.interrupted Sample.passing Sample.passing Sample.passing
      Sample.passing Sample.passing Sample.passing Sample.passing Sample.passing
      Sample.passing Sample.passing Sample.passing Sample.passing Sample.passing
      Sample.passing Sample.passing Sample.passing Sample.passing Sample.passing
      Sample.passing Sample.passing Sample.passing in
  let out :=
    run Sample.digits Sample.digits interrupted_first
      (Sample.runner_on (Sample.ok Sample.login_ok)) in
  out.1 = Raised (mkExc KeyboardInterrupt "")
  /\ results (session out.2) = []
  /\ files out.2 = ∅.
Proof.
  cbv zeta.
  apply (interrupt_in_first_check_ends_the_run Sample.digits Sample.digits
           (mkTestBodies Sample.interrupted Sample.passing Sample.passing Sample.passing
              Sample.passing Sample.passing Sample.passing Sample.passing Sample.passing
              Sample.passing Sample.passing Sample.passing Sample.passing Sample.passing
              Sample.passing Sample.passing Sample.passing Sample.passing Sample.passing
              Sample.passing Sample.passing Sample.passing)
           (Sample.runner_on (Sample.ok Sample.login_ok)) (mkExc KeyboardInterrupt "")
           eq_refl).
  intros r0. repeat split.
Defined.

(** ** The console of the report *)

Lemma for_each_failure_lines (res : list TestResult) :
  forall r : Runner,
  for_each res (fun result =>
                  if String.eqb (status result) "FAIL"
                  then log (test_id result +:+ ": " +:+ message result) "ERROR"
                  else mret tt) r
  = (Returned tt, set_console (fun c => c ++ failure_lines res) r).
Proof.
  unfold failure_lines.
  induction res as [|o res IH]; intros r; cbn [for_each].
  - cbn. unfold set_console. rewrite app_nil_r. now destruct r.
  - step_monad. rewrite filter_cons.
    destruct (String.eqb_spec (status o) "FAIL") as [Heq|Hne].
    + rewrite decide_True by assumption. cbn [fst snd]. rewrite IH.
      unfold set_console. cbn. now rewrite <- app_assoc.
    + rewrite decide_False by assumption. cbn [fst snd]. apply IH.
Qed.

(** X25: what [generate_report] prints: the seven lines of the summary;
    then, when an outcome is a failure, a heading and one line for each
    failure, its identifier and message, in the order the tests ran;
    then, when the file has been written, the line that names it. *)
Theorem generate_report_console (format_0f format_1f : float -> string) (r : Runner) :
  let res := results (session r) in
  console (generate_report format_0f format_1f r).2
  = console r
    ++ summary_lines format_0f format_1f res (clock r - start_time (session r))%float
    ++ (if (0 <? count_status "FAIL" res)%nat
        then mkLogLine "ERROR" "=== Failed Tests Details ===" :: failure_lines res
        else [])
    ++ match disk_error r with
       | Some _ => []
       | None => [mkLogLine "INFO" "Detailed report saved to: deployment-test-results.json"]
       end.
Proof.
  cbv zeta. unfold generate_report, write_report, summary_lines. step_monad. cbn.
  destruct (count_status "FAIL" (results (session r))) as [|nfailed] eqn:Hfailed; cbn.
  - destruct (disk_error r); cbn; rewrite <- ?app_assoc; cbn [app];
      rewrite ?app_nil_r; reflexivity.
  - rewrite for_each_failure_lines. cbn.
    destruct (disk_error r); cbn; rewrite <- ?app_assoc; cbn [app];
      rewrite ?app_nil_r; reflexivity.
Qed.

(** ** Counting, whatever the statuses *)

Lemma counts_bound (l : list TestResult) :
  (count_status "PASS" l + count_status "FAIL" l + count_status "SKIP" l <= length l)%nat
  /\ ((count_status "PASS" l + count_status "FAIL" l + count_status "SKIP" l)%nat = length l
      <-> Forall counted l).
Proof.
  induction l as [|o l [IHle IHeq]].
  - split; [reflexivity | split; [constructor | reflexivity]].
  - rewrite !count_status_cons, Forall_cons. cbn [length]. unfold counted at 1.
    destruct (String.eqb_spec (status o) "PASS") as [Hp|Hp];
      destruct (String.eqb_spec (status o) "FAIL") as [Hf|Hf];
      destruct (String.eqb_spec (status o) "SKIP") as [Hs|Hs];
      try (rewrite Hp in *; discriminate); try (rewrite Hf in *; discriminate);
      (split; [lia|]); rewrite <- IHeq; split.
    all: try (intros H; split; [tauto | lia]).
    all: try (intros [_ H]; lia).
    all: try (intros [[H|[H|H]] _]; contradiction).
    all: intros H; lia.
Qed.

(** X26: the three counts of the summary never exceed the total, and
    they add up to it exactly when every outcome has one of the statuses
    PASS, FAIL and SKIP: an outcome with another status is in the total
    and in none of the three. *)
Theorem summary_counts_bounded (format_0f format_1f : float -> string) (r : Runner) :
  disk_error r = None ->
  exists report,
    files (generate_report format_0f format_1f r).2 !! report_path = Some report
    /\ let s := summary report in
       (passed s + failed s + skipped s <= total_tests s)%nat
       /\ ((passed s + failed s + skipped s)%nat = total_tests s
           <-> Forall counted (results (session r))).
Proof.
  intros Hdisk. destruct (generate_report_run format_0f format_1f r) as [_ Hout].
  cbv zeta in Hout. rewrite Hdisk in Hout. destruct Hout as [_ Hfile].
  eexists. split; [exact Hfile|]. cbn. apply counts_bound.
Qed.

Lemma summary_counts_bounded_witness :
  let odd := mkTestResult "P9T9" "Odd" "ERROR" "" 0%float in
  let r :=
    set_session (set_results (fun l => l ++ [odd])) (Sample.runner_on Sample.denied) in
  exists report,
    files (generate_report Sample.digits Sample.digits r).2 !! report_path = Some report
    /\ total_tests (summary report) = 1%nat
    /\ (passed (summary report) + failed (summary report) + skipped (summary report))%nat
       = 0%nat.
Proof.
  cbv zeta.
  destruct (summary_counts_bounded Sample.digits Sample.digits
              (set_session (set_results (fun l => l ++ [mkTestResult "P9T9" "Odd" "ERROR" "" 0%float]))
                 (Sample.runner_on Sample.denied)) eq_refl) as (report & Hfile & _).
  exists report. split; [exact Hfile|].
  vm_compute in Hfile. injection Hfile as <-. split; reflexivity.
Defined.

(** ** The first probe *)

Lemma send_constant_reply (p : Retry) (ep : nat -> Request -> Reply) (req : Request)
    (rep : Reply) (retries n : nat) :
  (forall n req, ep n req = rep) ->
  exists made, send p ep req retries n = (rep, made).
Proof.
  intros Hep. revert n. induction retries as [|k IH]; intros n; cbn.
  - rewrite Hep. eauto.
  - rewrite Hep. destruct (retryable p req rep); [|eauto].
    destruct (IH (S n)) as [made ->]. eauto.
Qed.

(** X27: [check_deployment_access] never raises and leaves the session
    alone: it makes one GET of the login page, with a timeout of 10, and
    returns true exactly when the page answers 200; a page that answers
    otherwise, or cannot be reached, gives false. *)
Theorem check_deployment_access_outcome (r : Runner) (rep : Reply) :
  (forall n req, endpoint r n req = rep) ->
  let out := check_deployment_access r in
  out.1 = Returned (match rep with
                    | Answer resp => Z.eqb (status_code resp) 200
                    | Broken _ => false
                    end)
  /\ session out.2 = session r
  /\ posted out.2
     = posted r ++ [mkRequest "GET" (base_url (session r) +:+ "/login") None
                      (http_headers r) 10].
Proof.
  intros Hep out. subst out.
  unfold check_deployment_access, http_session_request. step_monad. cbn.
  match goal with
  | |- context [send ?p ?ep ?req ?k ?n] =>
      destruct (send_constant_reply p ep req rep k n Hep) as [made ->]
  end.
  destruct rep as [resp|what]; cbn; [|repeat split].
  destruct (bool_decide (status_code resp ∈ [401; 403])) eqn:Hprot; cbn.
  - apply bool_decide_eq_true in Hprot.
    assert (Hne : Z.eqb (status_code resp) 200 = false).
    { apply Z.eqb_neq. intros Heq. rewrite Heq in Hprot.
      apply elem_of_cons in Hprot as [?|Hprot]; [discriminate|].
      apply elem_of_cons in Hprot as [?|Hprot]; [discriminate|].
      now apply elem_of_nil in Hprot. }
    rewrite Hne. repeat split.
  - destruct (Z.eqb (status_code resp) 200); cbn; repeat split.
Qed.

Lemma check_deployment_access_outcome_witness :
  (check_deployment_access (Sample.runner_on Sample.denied)).1 = Returned false
  /\ (check_deployment_access (Sample.runner_on (Sample.ok Sample.login_ok))).1
     = Returned true.
Proof.
  split.
  - apply (check_deployment_access_outcome (Sample.runner_on Sample.denied)
             (Answer Sample.denied) (fun _ _ => eq_refl)).
  - apply (check_deployment_access_outcome (Sample.runner_on (Sample.ok Sample.login_ok))
             (Answer (Sample.ok Sample.login_ok)) (fun _ _ => eq_refl)).
Defined.
